(** * Scoped measurement blocks: [synapse/util/metrics.py]

    A shallow embedding of the [Measure] context manager and of the
    [measure_func] decorator, together with the collaborators they call
    (the clock, the logging-context provider, the counter registry and the
    logger), and the properties of one Acquire/Release cycle.

    Numbers.  Python mixes [int] and [float] freely here; every amount that
    reaches a counter is modelled as an exact rational ([Q]), millisecond
    clock readings as integers ([Z]).  Equalities between amounts are stated
    with [==] ([Qeq]).  The rounding of Python's [float] operations is not
    modelled: the properties below are about integer amounts (the block
    count and the millisecond durations), about which counters, labels and
    contexts are touched, about differences that are zero, and about
    order, which rounding preserves.  Nothing is stated about the exact
    value a [float] computation yields. *)

From Stdlib Require Import ZArith QArith Lqa String List.
From stdpp Require Import base option gmap strings.
Import ListNotations.

Open Scope string_scope.

(** ** Python values that cross the [__exit__] interface *)

(** An exception instance: its class, the classes that class derives
    from, whether [Exception] is one of them (rather than only
    [BaseException]), and its message. *)
Record PyException := {
  exc_class : string;
  exc_bases : list string;
  derives_Exception : bool;
  exc_message : string
}.

(** [isinstance(e, cls)] for an exception instance [e] and a class given
    by name. *)
Definition isinstance_of (e : PyException) (cls : string) : bool :=
  existsb (String.eqb cls) (exc_class e :: exc_bases e).

(** The objects [__exit__] can receive as [exc_type], [exc_val], [exc_tb],
    and the object it returns. *)
Inductive PyObject :=
| PyNone
| PyClass (cls : string)
| PyInstance (e : PyException)
| PyTraceback.

(** [isinstance(o, Exception)]: only an exception {e instance} can be one;
    [None] and class objects never are. *)
Definition isinstance_Exception (o : PyObject) : bool :=
  match o with
  | PyInstance e => derives_Exception e
  | _ => false
  end.

(** Truth value of an object, as tested by the [with] statement on the
    result of [__exit__]. *)
Definition truthy (o : PyObject) : bool :=
  match o with
  | PyNone => false
  | _ => true
  end.

(** ** Collaborators' data *)

(** Clocks and logging contexts are objects compared by identity: they are
    represented by references. *)
Definition Clock := nat.
Definition ctx_ref := nat.

Module LoggingContext.
(** The attributes of a logging context that [Measure] reads. *)
Record obj := {
  name : string;
  ru_utime : Q;
  ru_stime : Q;
  db_txn_count : Q;
  db_txn_duration_ms : Q;
  db_sched_duration_ms : Q;
  previous_context : option ctx_ref
}.
End LoggingContext.

(** The seven counters registered by the module, by the name of the
    variable that holds each. *)
Inductive counter :=
| block_counter
| block_timer
| block_ru_utime
| block_ru_stime
| block_db_txn_count
| block_db_txn_duration
| block_db_sched_duration.

#[global] Instance counter_eq_dec : EqDecision counter.
Proof. solve_decision. Defined.

(** The metric name given to [register_counter] for each of them. *)
Definition metric_name (k : counter) : string :=
  match k with
  | block_counter => "block_count"
  | block_timer => "block_time_seconds"
  | block_ru_utime => "block_ru_utime_seconds"
  | block_ru_stime => "block_ru_stime_seconds"
  | block_db_txn_count => "block_db_txn_count"
  | block_db_txn_duration => "block_db_txn_duration_seconds"
  | block_db_sched_duration => "block_db_sched_duration_seconds"
  end.

(** The counters that are fed from the logging context's running totals. *)
Definition resource_counters : list counter :=
  [block_ru_utime; block_ru_stime; block_db_txn_count;
   block_db_txn_duration; block_db_sched_duration].

(** An argument of a log call: a context (or its absence), printed with
    [%s], or a block name, printed with [%r]. *)
Inductive LogArg :=
| ArgContext (c : option ctx_ref)
| ArgName (n : string).

(** A call [logger.warn(fmt, *args)]. *)
Inductive LogRecord :=
| Warn (fmt : string) (args : list LogArg).

(** Life-cycle events of logging contexts. *)
Inductive ctx_event :=
| Created (c : ctx_ref)
| Entered (c : ctx_ref)
| Exited (c : ctx_ref).

(** ** The world the block runs in *)

Record World := {
  (** what [clock.time_msec()] returns, per clock *)
  clock_time : Clock -> Z;
  (** [LoggingContext.current_context()]; [None] is the absent (falsy)
      context *)
  current : option ctx_ref;
  (** the store of logging-context objects *)
  contexts : ctx_ref -> LoggingContext.obj;
  (** the next unused context reference *)
  next_ref : ctx_ref;
  (** the counter registry: per counter, the count of each label *)
  counts : counter -> gmap string Q;
  (** what was logged, oldest first *)
  log : list LogRecord;
  (** contexts created, entered and exited, oldest first *)
  trace : list ctx_event
}.

Definition set_current (c : option ctx_ref) (w : World) : World :=
  {| clock_time := clock_time w; current := c; contexts := contexts w;
     next_ref := next_ref w; counts := counts w; log := log w;
     trace := trace w |}.

Definition set_counts (cs : counter -> gmap string Q) (w : World) : World :=
  {| clock_time := clock_time w; current := current w;
     contexts := contexts w; next_ref := next_ref w; counts := cs;
     log := log w; trace := trace w |}.

Definition add_log (r : LogRecord) (w : World) : World :=
  {| clock_time := clock_time w; current := current w;
     contexts := contexts w; next_ref := next_ref w; counts := counts w;
     log := log w ++ [r]; trace := trace w |}.

Definition add_event (e : ctx_event) (w : World) : World :=
  {| clock_time := clock_time w; current := current w;
     contexts := contexts w; next_ref := next_ref w; counts := counts w;
     log := log w; trace := trace w ++ [e] |}.

Definition alloc_context (o : LoggingContext.obj) (w : World) : World :=
  {| clock_time := clock_time w; current := current w;
     contexts := fun r => if decide (r = next_ref w) then o else contexts w r;
     next_ref := S (next_ref w); counts := counts w; log := log w;
     trace := trace w |}.

Definition store_context (c : ctx_ref) (o : LoggingContext.obj) (w : World)
  : World :=
  {| clock_time := clock_time w; current := current w;
     contexts := fun r => if decide (r = c) then o else contexts w r;
     next_ref := next_ref w; counts := counts w; log := log w;
     trace := trace w |}.

(** ** Computations: state passing with Python exceptions

    A raised exception keeps the side effects performed before it. *)

Inductive outcome (A : Type) : Type :=
| Return (a : A)
| Raise (e : PyException).
Arguments Return {A} a.
Arguments Raise {A} e.

Definition M (A : Type) : Type := World -> outcome A * World.

Definition ret {A} (a : A) : M A := fun w => (Return a, w).

Definition raise {A} (e : PyException) : M A := fun w => (Raise e, w).

Definition bind {A B} (m : M A) (f : A -> M B) : M B :=
  fun w =>
    match m w with
    | (Return a, w') => f a w'
    | (Raise e, w') => (Raise e, w')
    end.

Declare Scope py_scope.
Delimit Scope py_scope with py.
Notation "x <- c1 ;; c2" := (bind c1 (fun x => c2))
  (at level 100, c1 at next level, c2 at level 200, right associativity)
  : py_scope.
Notation "c1 ;; c2" := (bind c1 (fun _ => c2))
  (at level 100, c2 at level 200, right associativity) : py_scope.
Open Scope py_scope.

Definition AttributeError (attr : string) : PyException :=
  {| exc_class := "AttributeError";
     exc_bases := ["StandardError"; "Exception"; "BaseException"];
     derives_Exception := true; exc_message := attr |}.

Definition TypeError (msg : string) : PyException :=
  {| exc_class := "TypeError";
     exc_bases := ["StandardError"; "Exception"; "BaseException"];
     derives_Exception := true; exc_message := msg |}.

Definition UnboundLocalError (var : string) : PyException :=
  {| exc_class := "UnboundLocalError";
     exc_bases := ["NameError"; "StandardError"; "Exception"; "BaseException"];
     derives_Exception := true; exc_message := var |}.

(** Reading a slot of a [__slots__] class that was never assigned. *)
Definition slot {A} (attr : string) (v : option A) : M A :=
  match v with
  | Some a => ret a
  | None => raise (AttributeError attr)
  end.

(** ** The clock and the logger *)

Definition time_msec (clock : Clock) : M Z :=
  fun w => (Return (clock_time w clock), w).

Definition warn (fmt : string) (args : list LogArg) : M unit :=
  fun w => (Return tt, add_log (Warn fmt args) w).

(** ** The counter registry *)

(** Modelled from the spec: the registry ([synapse.metrics]) is not part of
    the sources; its counters are label-partitioned accumulators that
    support increment-by-amount by label.  The count of a label that was
    never incremented is 0.  [inc_by] adds the amount it is given, exactly
    (Python rounds the sum where it is a [float]); what the registry does
    with a negative amount is not said anywhere, and nothing below rests
    on it beyond the amount having been added. *)
Definition count (c : gmap string Q) (label : string) : Q :=
  default 0%Q (c !! label).

Definition inc_by (k : counter) (incr : Q) (label : string) : M unit :=
  fun w =>
    (Return tt,
     set_counts
       (fun k' =>
          if decide (k' = k)
          then <[label := (count (counts w k) label + incr)%Q]> (counts w k)
          else counts w k')
       w).

(** Modelled from the spec: increment by label is increment by one. *)
Definition inc (k : counter) (label : string) : M unit :=
  inc_by k 1%Q label.

(** ** The logging-context provider *)

(** Modelled from the spec: [synapse.util.logcontext] is not part of the
    sources.  [current() -> Context|absent]. *)
Definition current_context : M (option ctx_ref) :=
  fun w => (Return (current w), w).

(** Truth value of what [current_context] returns: the absent context is
    falsy, a context is truthy. *)
Definition context_truthy (c : option ctx_ref) : bool :=
  match c with
  | Some _ => true
  | None => false
  end.

(** Modelled from the spec: constructing [LoggingContext(name)] yields a
    new context, distinct from every existing one, whose running totals
    start at zero. *)
Definition new_LoggingContext (name : string) : M ctx_ref :=
  fun w =>
    (Return (next_ref w),
     add_event (Created (next_ref w))
       (alloc_context
          {| LoggingContext.name := name;
             LoggingContext.ru_utime := 0;
             LoggingContext.ru_stime := 0;
             LoggingContext.db_txn_count := 0;
             LoggingContext.db_txn_duration_ms := 0;
             LoggingContext.db_sched_duration_ms := 0;
             LoggingContext.previous_context := None |}
          w)).

Definition with_previous (p : option ctx_ref) (o : LoggingContext.obj)
  : LoggingContext.obj :=
  {| LoggingContext.name := LoggingContext.name o;
     LoggingContext.ru_utime := LoggingContext.ru_utime o;
     LoggingContext.ru_stime := LoggingContext.ru_stime o;
     LoggingContext.db_txn_count := LoggingContext.db_txn_count o;
     LoggingContext.db_txn_duration_ms := LoggingContext.db_txn_duration_ms o;
     LoggingContext.db_sched_duration_ms :=
       LoggingContext.db_sched_duration_ms o;
     LoggingContext.previous_context := p |}.

(** Modelled from the spec: entering a context pushes it, making it the
    active one and remembering the one it replaces. *)
Definition LoggingContext_enter (c : ctx_ref) : M unit :=
  fun w =>
    (Return tt,
     add_event (Entered c)
       (set_current (Some c)
          (store_context c (with_previous (current w) (contexts w c)) w))).

(** Modelled from the spec: [context.exit()] pops the context, making the
    one it had replaced active again. *)
Definition LoggingContext_exit (c : ctx_ref)
  (exc_type exc_val exc_tb : PyObject) : M unit :=
  fun w =>
    (Return tt,
     add_event (Exited c)
       (set_current (LoggingContext.previous_context (contexts w c))
          (store_context c (with_previous None (contexts w c)) w))).

(** Modelled from the spec: [context.resource_usage() -> (user_s, sys_s)]. *)
Definition get_resource_usage (c : ctx_ref) : M (Q * Q) :=
  fun w =>
    (Return (LoggingContext.ru_utime (contexts w c),
             LoggingContext.ru_stime (contexts w c)), w).

(** Reading a numeric attribute of a context. *)
Definition getattr (c : ctx_ref) (field : LoggingContext.obj -> Q) : M Q :=
  fun w => (Return (field (contexts w c)), w).

(** ** The measurement block *)

Module Measure.

(** The slots of a [Measure] object.  [__init__] assigns only [clock],
    [name], [start_context], [start] and [created_context]; the five
    snapshot slots stay unassigned ([None] here) until [__enter__], and
    the declared slot [new_context] is never used. *)
Record obj := {
  clock : Clock;
  name : string;
  start_context : option ctx_ref;
  start : option Z;
  ru_utime : option Q;
  ru_stime : option Q;
  db_txn_count : option Q;
  db_txn_duration_ms : option Q;
  db_sched_duration_ms : option Q;
  created_context : bool
}.

Definition __init__ (clock : Clock) (name : string) : obj :=
  {| clock := clock; name := name; start_context := None; start := None;
     ru_utime := None; ru_stime := None; db_txn_count := None;
     db_txn_duration_ms := None; db_sched_duration_ms := None;
     created_context := false |}.

(** Lines 118-122: the context that becomes [self.start_context], and
    whether the block had to create it. *)
Definition establish_context : M (ctx_ref * bool) :=
  ctx <- current_context ;;
  match ctx with
  | Some c => ret (c, false)
  | None =>
      c <- new_LoggingContext "Measure" ;;
      LoggingContext_enter c ;;
      ret (c, true)
  end.

(** Acquire.  The updated object is returned, since [self] is mutated. *)
Definition __enter__ (self : obj) : M obj :=
  now <- time_msec (clock self) ;;
  sc <- establish_context ;;
  let c := fst sc in
  usage <- get_resource_usage c ;;
  txn_count <- getattr c LoggingContext.db_txn_count ;;
  txn_duration <- getattr c LoggingContext.db_txn_duration_ms ;;
  sched_duration <- getattr c LoggingContext.db_sched_duration_ms ;;
  ret {| clock := clock self; name := name self;
         start_context := Some c; start := Some now;
         ru_utime := Some (fst usage); ru_stime := Some (snd usage);
         db_txn_count := Some txn_count;
         db_txn_duration_ms := Some txn_duration;
         db_sched_duration_ms := Some sched_duration;
         created_context := created_context self || snd sc |}.

(** [self.clock.time_msec() - self.start]: subtracting [None] from an
    integer is a [TypeError]. *)
Definition elapsed (now : Z) (start : option Z) : M Z :=
  match start with
  | Some s => ret (now - s)%Z
  | None => raise (TypeError "unsupported operand type(s) for -")
  end.

(** Lines 151-165: the five context-derived increments.  The
    subtractions and the divisions by [1000.] are exact here; Python
    rounds them where the operands are [float]s. *)
Definition record_usage (self : obj) (c : ctx_ref) : M unit :=
  usage <- get_resource_usage c ;;
  ru_utime0 <- slot "ru_utime" (ru_utime self) ;;
  inc_by block_ru_utime (fst usage - ru_utime0)%Q (name self) ;;
  ru_stime0 <- slot "ru_stime" (ru_stime self) ;;
  inc_by block_ru_stime (snd usage - ru_stime0)%Q (name self) ;;
  txn_count <- getattr c LoggingContext.db_txn_count ;;
  txn_count0 <- slot "db_txn_count" (db_txn_count self) ;;
  inc_by block_db_txn_count (txn_count - txn_count0)%Q (name self) ;;
  txn_duration <- getattr c LoggingContext.db_txn_duration_ms ;;
  txn_duration0 <- slot "db_txn_duration_ms" (db_txn_duration_ms self) ;;
  inc_by block_db_txn_duration
    ((txn_duration - txn_duration0) / 1000)%Q (name self) ;;
  sched_duration <- getattr c LoggingContext.db_sched_duration_ms ;;
  sched_duration0 <-
    slot "db_sched_duration_ms" (db_sched_duration_ms self) ;;
  inc_by block_db_sched_duration
    ((sched_duration - sched_duration0) / 1000)%Q (name self).

(** Release.  Every path returns [None]. *)
Definition __exit__ (self : obj) (exc_type exc_val exc_tb : PyObject)
  : M PyObject :=
  if isinstance_Exception exc_type
     || negb (context_truthy (start_context self))
  then ret PyNone
  else
    now <- time_msec (clock self) ;;
    duration <- elapsed now (start self) ;;
    inc block_counter (name self) ;;
    inc_by block_timer (inject_Z duration) (name self) ;;
    context <- current_context ;;
    if negb (bool_decide (context = start_context self)) then
      warn "Context has unexpectedly changed from '%s' to '%s'. (%r)"
        [ArgContext (start_context self); ArgContext context;
         ArgName (name self)] ;;
      ret PyNone
    else
      match context with
      | None =>
          warn "Expected context. (%r)" [ArgName (name self)] ;;
          ret PyNone
      | Some c =>
          record_usage self c ;;
          if created_context self then
            match start_context self with
            | Some sc =>
                LoggingContext_exit sc exc_type exc_val exc_tb ;;
                ret PyNone
            | None => raise (AttributeError "__exit__")
            end
          else ret PyNone
      end.

End Measure.

(** ** The [with] statement and the decorator *)

(** What the [with] statement passes to [__exit__] when its body raised
    [e]: the class of [e], [e] itself, and a traceback. *)
Definition exc_info (e : PyException) : PyObject * PyObject * PyObject :=
  (PyClass (exc_class e), PyInstance e, PyTraceback).

(** What it passes for an outcome of the body, raised or not. *)
Definition exit_args {A} (r : outcome A) : PyObject * PyObject * PyObject :=
  match r with
  | Return _ => (PyNone, PyNone, PyNone)
  | Raise e => exc_info e
  end.

Definition call_exit {A} (self : Measure.obj) (r : outcome A) : M PyObject :=
  let '(exc_type, exc_val, exc_tb) := exit_args r in
  Measure.__exit__ self exc_type exc_val exc_tb.

(** [with Measure(clock, name): body].  The body is any computation on the
    world: it may suspend and let other tasks run, so it can advance the
    clock, switch the active context, and change contexts and counters.
    The result is [None] when the body raised and [__exit__] asked for the
    exception to be swallowed by returning a true value. *)
Definition with_Measure {A} (clock : Clock) (name : string) (body : M A)
  : M (option A) :=
  fun w0 =>
    match Measure.__enter__ (Measure.__init__ clock name) w0 with
    | (Raise e, w1) => (Raise e, w1)
    | (Return self, w1) =>
        let (r, w2) := body w1 in
        match call_exit self r w2 with
        | (Raise e', w3) => (Raise e', w3)
        | (Return suppress, w3) =>
            match r with
            | Return a => (Return (Some a), w3)
            | Raise e =>
                if truthy suppress then (Return None, w3) else (Raise e, w3)
            end
        end
    end.

(** Lines 93-96, the generator [measured_func]: the method's clock is
    [self.clock]; the wrapped method runs to its result inside the [with]
    block, whether it gives it at once or through a Deferred that the
    generator yields.  Returning [v] here stands for the final
    [defer.returnValue(v)]; the local [r] is unbound if the [with] block
    swallowed an exception. *)
Definition measured_func {Self Args R : Type} (clock_of : Self -> Clock)
  (name : string) (func : Self -> Args -> M R) : Self -> Args -> M R :=
  fun self args =>
    r <- with_Measure (clock_of self) name (func self args) ;;
    match r with
    | Some v => ret v
    | None => raise (UnboundLocalError "r")
    end.

Definition RuntimeError (msg : string) : PyException :=
  {| exc_class := "RuntimeError";
     exc_bases := ["Exception"; "BaseException"];
     derives_Exception := true; exc_message := msg |}.

(** The exception with which a generator is left when its body raises
    [e].  Where PEP 479 is in force (Python 3.7 and later) a
    [StopIteration] raised in the body is replaced by a [RuntimeError];
    on Python 2, the language of the module, it leaves the generator as
    it is. *)
Definition generator_exit (pep479 : bool) (e : PyException) : PyException :=
  if pep479 && isinstance_of e "StopIteration"
  then RuntimeError "generator raised StopIteration"
  else e.

(** What the Deferred returned by a function decorated with
    [defer.inlineCallbacks] fires with: the value the generator gave to
    [returnValue], or the value the driver takes from the signal that
    ended the generator ([None] for a [StopIteration], [e.value] for a
    [_DefGen_Return] that the generator did not raise itself). *)
Inductive deferred_value (R : Type) : Type :=
| Value (r : R)
| SignalValue (e : PyException).
Arguments Value {R} r.
Arguments SignalValue {R} e.

(** The driver of [defer.inlineCallbacks] (Twisted, not part of the
    sources), on the outcome of the generator: an exception that leaves
    the generator is taken for its end when it is a [StopIteration], for
    a call of [returnValue] when it is a [_DefGen_Return], and makes the
    Deferred fail with it otherwise. *)
Definition delivered {R : Type} (pep479 : bool) (r : outcome R)
  : outcome (deferred_value R) :=
  match r with
  | Return v => Return (Value v)
  | Raise e =>
      let e' := generator_exit pep479 e in
      if isinstance_of e' "StopIteration" then Return (SignalValue e')
      else if isinstance_of e' "_DefGen_Return" then Return (SignalValue e')
      else Raise e'
  end.

Definition inlineCallbacks {R : Type} (pep479 : bool) (generator : M R)
  : M (deferred_value R) :=
  fun w => let (r, w') := generator w in (delivered pep479 r, w').

(** [measure_func(name)(func)], lines 89-98: [measured_func] under
    [defer.inlineCallbacks] ([wraps] only copies the method's name and
    documentation).  [Return] and [Raise] are the result and the failure
    of the Deferred the caller gets. *)
Definition measure_func {Self Args R : Type} (pep479 : bool)
  (clock_of : Self -> Clock) (name : string) (func : Self -> Args -> M R)
  : Self -> Args -> M (deferred_value R) :=
  fun self args =>
    inlineCallbacks pep479 (measured_func clock_of name func self args).

(** ** Worlds reached by Release

    The effect of each path through [__exit__], as functions on worlds. *)

(** The world after [inc_by]. *)
Definition bump (k : counter) (incr : Q) (label : string) (w : World)
  : World :=
  snd (inc_by k incr label w).

(** After lines 133-136: the two context-independent counters. *)
Definition counted (self : Measure.obj) (s : Z) (w : World) : World :=
  bump block_timer
    (inject_Z (clock_time w (Measure.clock self) - s)) (Measure.name self)
    (bump block_counter 1 (Measure.name self) w).

(** After lines 151-165, for a baseline snapshot [u0 s0 n0 d0 sd0]. *)
Definition usage_recorded (self : Measure.obj) (c : ctx_ref)
  (u0 s0 n0 d0 sd0 : Q) (w : World) : World :=
  let o := contexts w c in
  let label := Measure.name self in
  bump block_db_sched_duration
    ((LoggingContext.db_sched_duration_ms o - sd0) / 1000) label
    (bump block_db_txn_duration
       ((LoggingContext.db_txn_duration_ms o - d0) / 1000) label
       (bump block_db_txn_count (LoggingContext.db_txn_count o - n0) label
          (bump block_ru_stime (LoggingContext.ru_stime o - s0) label
             (bump block_ru_utime (LoggingContext.ru_utime o - u0) label
                w)))).

(** After lines 167-168. *)
Definition torn_down (self : Measure.obj) (c : ctx_ref) (w : World) : World :=
  if Measure.created_context self
  then snd (LoggingContext_exit c PyNone PyNone PyNone w)
  else w.

Definition context_changed_warning (start_context context : option ctx_ref)
  (name : string) : LogRecord :=
  Warn "Context has unexpectedly changed from '%s' to '%s'. (%r)"
    [ArgContext start_context; ArgContext context; ArgName name].

Definition expected_context_warning (name : string) : LogRecord :=
  Warn "Expected context. (%r)" [ArgName name].

(** The block's snapshot slots hold the running totals of [o]. *)
Definition snapshot_of (m : Measure.obj) (o : LoggingContext.obj) : Prop :=
  Measure.ru_utime m = Some (LoggingContext.ru_utime o) /\
  Measure.ru_stime m = Some (LoggingContext.ru_stime o) /\
  Measure.db_txn_count m = Some (LoggingContext.db_txn_count o) /\
  Measure.db_txn_duration_ms m = Some (LoggingContext.db_txn_duration_ms o) /\
  Measure.db_sched_duration_ms m
    = Some (LoggingContext.db_sched_duration_ms o).

(** None of the five running totals of [o1] exceeds that of [o2]. *)
Definition totals_le (o1 o2 : LoggingContext.obj) : Prop :=
  (LoggingContext.ru_utime o1 <= LoggingContext.ru_utime o2)%Q /\
  (LoggingContext.ru_stime o1 <= LoggingContext.ru_stime o2)%Q /\
  (LoggingContext.db_txn_count o1 <= LoggingContext.db_txn_count o2)%Q /\
  (LoggingContext.db_txn_duration_ms o1
     <= LoggingContext.db_txn_duration_ms o2)%Q /\
  (LoggingContext.db_sched_duration_ms o1
     <= LoggingContext.db_sched_duration_ms o2)%Q.

(** ** A concrete run: the scenario of the specification

    Clock 0 reads 1000 ms and no context is active; the block is named
    "x".  The wrapped work performs two transactions taking 400 ms in all
    and returns when the clock reads 1300 ms. *)

Definition idle_context : LoggingContext.obj :=
  {| LoggingContext.name := ""; LoggingContext.ru_utime := 0;
     LoggingContext.ru_stime := 0; LoggingContext.db_txn_count := 0;
     LoggingContext.db_txn_duration_ms := 0;
     LoggingContext.db_sched_duration_ms := 0;
     LoggingContext.previous_context := None |}.

Definition world0 : World :=
  {| clock_time := fun _ => 1000%Z; current := None;
     contexts := fun _ => idle_context; next_ref := 0;
     counts := fun _ => ∅; log := []; trace := [] |}.

(** The work: the clock advances to [t] and context [c] accumulates
    [n] transactions taking [d] ms. *)
Definition work (t : Z) (c : ctx_ref) (n d : Q) : M unit :=
  fun w =>
    (Return tt,
     {| clock_time := fun _ => t; current := current w;
        contexts := fun r =>
          if decide (r = c)
          then {| LoggingContext.name := LoggingContext.name (contexts w c);
                  LoggingContext.ru_utime := 0;
                  LoggingContext.ru_stime := 0;
                  LoggingContext.db_txn_count := n;
                  LoggingContext.db_txn_duration_ms := d;
                  LoggingContext.db_sched_duration_ms := 0;
                  LoggingContext.previous_context :=
                    LoggingContext.previous_context (contexts w c) |}
          else contexts w r;
        next_ref := next_ref w; counts := counts w; log := log w;
        trace := trace w |}).

(** Work that loses the active context before it returns. *)
Definition drifting_work (t : Z) (to : option ctx_ref) : M unit :=
  fun w =>
    (Return tt,
     {| clock_time := fun _ => t; current := to; contexts := contexts w;
        next_ref := next_ref w; counts := counts w; log := log w;
        trace := trace w |}).

Definition ValueError : PyException :=
  {| exc_class := "ValueError";
     exc_bases := ["StandardError"; "Exception"; "BaseException"];
     derives_Exception := true; exc_message := "boom" |}.

(** The exception that ends an iteration. *)
Definition StopIteration : PyException :=
  {| exc_class := "StopIteration";
     exc_bases := ["Exception"; "BaseException"];
     derives_Exception := true; exc_message := "" |}.

(** Work that fails after 300 ms. *)
Definition failing_work (self args : unit) : M unit :=
  fun w => (Raise ValueError, snd (work 1300 0 0 0 w)).

(** The work of the scenario, as a method. *)
Definition scenario_method (self args : unit) : M unit :=
  work 1300 0 2 400.

(** Work that fails after 300 ms with the exception that ends an
    iteration. *)
Definition stopping_work (self args : unit) : M unit :=
  fun w => (Raise StopIteration, snd (work 1300 0 0 0 w)).

(** The block after Acquire in [world0], and the worlds around the work. *)
Definition block_x : Measure.obj :=
  {| Measure.clock := 0; Measure.name := "x";
     Measure.start_context := Some 0; Measure.start := Some 1000%Z;
     Measure.ru_utime := Some 0%Q; Measure.ru_stime := Some 0%Q;
     Measure.db_txn_count := Some 0%Q;
     Measure.db_txn_duration_ms := Some 0%Q;
     Measure.db_sched_duration_ms := Some 0%Q;
     Measure.created_context := true |}.

Definition world1 : World :=
  snd (Measure.__enter__ (Measure.__init__ 0 "x") world0).

Definition world2 : World := snd (work 1300 0 2 400 world1).

Definition world2_drifted : World := snd (drifting_work 1300 (Some 7) world1).

Definition world2_absent : World := snd (drifting_work 1300 None world1).

Definition world2_failed : World := snd (failing_work tt tt world1).

(** ** The registrations, and code that uses the block *)

Definition all_counters : list counter :=
  [block_counter; block_timer; block_ru_utime; block_ru_stime;
   block_db_txn_count; block_db_txn_duration; block_db_sched_duration].

(** The deprecated aliases passed as [alternative_names] at lines 31-86.
    [name_prefix] is an attribute of the registry object, which is not
    part of the sources: it is a parameter. *)
Definition alternative_names (name_prefix : string) (k : counter)
  : list string :=
  match k with
  | block_counter =>
      map (String.append name_prefix)
        ["_block_timer:count"; "_block_ru_utime:count";
         "_block_ru_stime:count"; "_block_db_txn_count:count";
         "_block_db_txn_duration:count"]
  | block_timer => [String.append name_prefix "_block_timer:total"]
  | block_ru_utime => [String.append name_prefix "_block_ru_utime:total"]
  | block_ru_stime => [String.append name_prefix "_block_ru_stime:total"]
  | block_db_txn_count =>
      [String.append name_prefix "_block_db_txn_count:total"]
  | block_db_txn_duration =>
      [String.append name_prefix "_block_db_txn_duration:total"]
  | block_db_sched_duration => []
  end.

(** The amount lines 151-165 add to resource counter [k] when the context
    went from [o1] at Acquire to [o2] at Release (0 for the two counters
    those lines do not touch). *)
Definition usage_delta (k : counter) (o1 o2 : LoggingContext.obj) : Q :=
  match k with
  | block_ru_utime =>
      LoggingContext.ru_utime o2 - LoggingContext.ru_utime o1
  | block_ru_stime =>
      LoggingContext.ru_stime o2 - LoggingContext.ru_stime o1
  | block_db_txn_count =>
      LoggingContext.db_txn_count o2 - LoggingContext.db_txn_count o1
  | block_db_txn_duration =>
      (LoggingContext.db_txn_duration_ms o2
       - LoggingContext.db_txn_duration_ms o1) / 1000
  | block_db_sched_duration =>
      (LoggingContext.db_sched_duration_ms o2
       - LoggingContext.db_sched_duration_ms o1) / 1000
  | block_counter | block_timer => 0
  end%Q.

(** The running totals [Measure] reads from a context. *)
Definition running_totals (o : LoggingContext.obj) : list Q :=
  [LoggingContext.ru_utime o; LoggingContext.ru_stime o;
   LoggingContext.db_txn_count o; LoggingContext.db_txn_duration_ms o;
   LoggingContext.db_sched_duration_ms o].

(** A caller that runs one [with Measure(clock, name):] block after the
    other, one per piece of work. *)
Fixpoint measure_each {R : Type} (clock : Clock) (name : string)
  (works : list (M R)) : M unit :=
  match works with
  | [] => ret tt
  | work :: rest =>
      with_Measure clock name work ;;
      measure_each clock name rest
  end.

(** A world in which context 3 is active, with some usage behind it. *)
Definition busy_context : LoggingContext.obj :=
  {| LoggingContext.name := "request"; LoggingContext.ru_utime := 5 # 2;
     LoggingContext.ru_stime := 1 # 2; LoggingContext.db_txn_count := 4;
     LoggingContext.db_txn_duration_ms := 120;
     LoggingContext.db_sched_duration_ms := 30;
     LoggingContext.previous_context := None |}.

Definition world_active : World :=
  {| clock_time := fun _ => 5000%Z; current := Some 3;
     contexts := fun _ => busy_context; next_ref := 4;
     counts := fun _ => ∅; log := []; trace := [] |}.

(** The block named "y" after Acquire in [world_active]. *)
Definition block_y : Measure.obj :=
  {| Measure.clock := 0; Measure.name := "y";
     Measure.start_context := Some 3; Measure.start := Some 5000%Z;
     Measure.ru_utime := Some (5 # 2); Measure.ru_stime := Some (1 # 2);
     Measure.db_txn_count := Some 4%Q;
     Measure.db_txn_duration_ms := Some 120%Q;
     Measure.db_sched_duration_ms := Some 30%Q;
     Measure.created_context := false |}.

(** Two pieces of work for [measure_each]. *)
Definition two_works : list (M unit) :=
  [work 1300 0 2 400; work 1600 0 3 500].

(** * Properties *)

(** ** The counter registry *)

Section Registry.
Variables (k : counter) (incr : Q) (label : string) (w : World).

Lemma count_bump :
  count (counts (bump k incr label w) k) label
  = (count (counts w k) label + incr)%Q.
Proof.
  unfold bump, inc_by, count; simpl.
  rewrite decide_True by reflexivity.
  now rewrite lookup_insert_eq.
Qed.

Lemma counts_bump_ne k' :
  k' <> k -> counts (bump k incr label w) k' = counts w k'.
Proof.
  intros Hne. unfold bump, inc_by; simpl.
  now rewrite decide_False.
Qed.

Lemma lookup_bump_ne k' label' :
  label' <> label ->
  counts (bump k incr label w) k' !! label' = counts w k' !! label'.
Proof.
  intros Hne. unfold bump, inc_by; simpl.
  destruct (decide (k' = k)) as [->|]; [|reflexivity].
  now rewrite lookup_insert_ne.
Qed.

Lemma count_bump_le k' label' :
  (0 <= incr)%Q ->
  (count (counts w k') label' <= count (counts (bump k incr label w) k') label')%Q.
Proof.
  intros Hpos.
  destruct (decide (k' = k)) as [->|Hk].
  - destruct (decide (label' = label)) as [->|Hl].
    + rewrite count_bump. lra.
    + unfold count. rewrite lookup_bump_ne by assumption. apply Qle_refl.
  - rewrite counts_bump_ne by assumption. apply Qle_refl.
Qed.

End Registry.

Arguments bump : simpl never.

Ltac other_counters := repeat (rewrite counts_bump_ne by discriminate).
Ltac other_labels := repeat (rewrite lookup_bump_ne by assumption).

(** ** Running a computation step by step *)

Section Steps.
Context {B : Type}.
Variables (f_unit : unit -> M B) (w : World).

Lemma bind_ret {A} (a : A) (f : A -> M B) : bind (ret a) f w = f a w.
Proof. reflexivity. Qed.

Lemma bind_returns {A} (m : M A) (f : A -> M B) (a : A) (w' : World) :
  m w = (Return a, w') -> bind m f w = f a w'.
Proof. intros H. unfold bind. now rewrite H. Qed.

Lemma bind_time_msec (clock : Clock) (f : Z -> M B) :
  bind (time_msec clock) f w = f (clock_time w clock) w.
Proof. reflexivity. Qed.

Lemma bind_current_context (f : option ctx_ref -> M B) :
  bind current_context f w = f (current w) w.
Proof. reflexivity. Qed.

Lemma bind_inc_by (k : counter) (incr : Q) (label : string) :
  bind (inc_by k incr label) f_unit w = f_unit tt (bump k incr label w).
Proof. reflexivity. Qed.

Lemma bind_get_resource_usage (c : ctx_ref) (f : Q * Q -> M B) :
  bind (get_resource_usage c) f w
  = f (LoggingContext.ru_utime (contexts w c),
       LoggingContext.ru_stime (contexts w c)) w.
Proof. reflexivity. Qed.

Lemma bind_getattr (c : ctx_ref) (field : LoggingContext.obj -> Q)
  (f : Q -> M B) :
  bind (getattr c field) f w = f (field (contexts w c)) w.
Proof. reflexivity. Qed.
End Steps.

Ltac step :=
  first [ rewrite bind_ret | rewrite bind_inc_by | rewrite bind_getattr
        | rewrite bind_get_resource_usage | rewrite bind_current_context
        | rewrite bind_time_msec ].

(** ** The paths through [__exit__] *)

Section Release.
Variables (self : Measure.obj) (exc_type exc_val exc_tb : PyObject).
Variable w : World.

(** Lines 130-131, second disjunct. *)
Lemma exit_unacquired :
  Measure.start_context self = None ->
  Measure.__exit__ self exc_type exc_val exc_tb w = (Return PyNone, w).
Proof.
  intros Hsc. unfold Measure.__exit__. rewrite Hsc; simpl.
  now rewrite orb_true_r.
Qed.

Variables (c : ctx_ref) (s : Z).
Hypothesis Hsc : Measure.start_context self = Some c.
Hypothesis Hstart : Measure.start self = Some s.
Hypothesis Hexc : isinstance_Exception exc_type = false.

(** Lines 140-145. *)
Lemma exit_mismatch :
  current w <> Some c ->
  Measure.__exit__ self exc_type exc_val exc_tb w
  = (Return PyNone,
     add_log
       (context_changed_warning (Some c) (current w) (Measure.name self))
       (counted self s w)).
Proof.
  intros Hcur. unfold Measure.__exit__. rewrite Hexc, Hsc; simpl.
  unfold bind at 1, time_msec at 1. rewrite Hstart; simpl.
  unfold bind, inc, current_context; simpl.
  now rewrite bool_decide_eq_false_2.
Qed.

(** Lines 151-168. *)
Lemma exit_stable u0 s0 n0 d0 sd0 :
  Measure.ru_utime self = Some u0 ->
  Measure.ru_stime self = Some s0 ->
  Measure.db_txn_count self = Some n0 ->
  Measure.db_txn_duration_ms self = Some d0 ->
  Measure.db_sched_duration_ms self = Some sd0 ->
  current w = Some c ->
  Measure.__exit__ self exc_type exc_val exc_tb w
  = (Return PyNone,
     torn_down self c
       (usage_recorded self c u0 s0 n0 d0 sd0 (counted self s w))).
Proof.
  intros H1 H2 H3 H4 H5 Hcur.
  unfold Measure.__exit__. rewrite Hexc, Hsc.
  cbn [orb negb context_truthy].
  rewrite bind_time_msec, Hstart.
  unfold Measure.elapsed, inc. rewrite bind_ret, !bind_inc_by.
  fold (counted self s w).
  rewrite bind_current_context.
  change (current (counted self s w)) with (current w). rewrite Hcur.
  rewrite bool_decide_eq_true_2 by reflexivity. cbn [negb].
  rewrite (bind_returns _ _ _ tt
             (usage_recorded self c u0 s0 n0 d0 sd0 (counted self s w))).
  - unfold torn_down.
    destruct (Measure.created_context self); [|reflexivity].
    reflexivity.
  - unfold Measure.record_usage.
    rewrite H1, H2, H3, H4, H5. unfold slot.
    repeat (step; cbv beta).
    reflexivity.
Qed.
End Release.

(** What the [with] statement passes as [exc_type] is never an instance of
    [Exception], so the first disjunct of line 130 is false. *)
Lemma call_exit_args {A} (self : Measure.obj) (r : outcome A) :
  exists exc_type exc_val exc_tb,
    isinstance_Exception exc_type = false /\
    call_exit self r = Measure.__exit__ self exc_type exc_val exc_tb.
Proof.
  destruct r as [a|e].
  - now exists PyNone, PyNone, PyNone.
  - now exists (PyClass (exc_class e)), (PyInstance e), PyTraceback.
Qed.

(** ** Acquire *)

Section Acquire.
Variables (clock : Clock) (name : string) (w0 : World).

Lemma enter_borrows c :
  current w0 = Some c ->
  Measure.__enter__ (Measure.__init__ clock name) w0
  = (Return
       {| Measure.clock := clock; Measure.name := name;
          Measure.start_context := Some c;
          Measure.start := Some (clock_time w0 clock);
          Measure.ru_utime := Some (LoggingContext.ru_utime (contexts w0 c));
          Measure.ru_stime := Some (LoggingContext.ru_stime (contexts w0 c));
          Measure.db_txn_count :=
            Some (LoggingContext.db_txn_count (contexts w0 c));
          Measure.db_txn_duration_ms :=
            Some (LoggingContext.db_txn_duration_ms (contexts w0 c));
          Measure.db_sched_duration_ms :=
            Some (LoggingContext.db_sched_duration_ms (contexts w0 c));
          Measure.created_context := false |},
     w0).
Proof.
  intros Hcur.
  unfold Measure.__enter__, Measure.establish_context, bind,
    current_context, time_msec; simpl.
  now rewrite Hcur.
Qed.

(** Acquire always returns. *)
Lemma enter_returns :
  exists m1 w1,
    Measure.__enter__ (Measure.__init__ clock name) w0 = (Return m1, w1).
Proof.
  destruct (current w0) as [c|] eqn:Hcur.
  - eexists _, _. exact (enter_borrows c Hcur).
  - unfold Measure.__enter__, Measure.establish_context, bind,
      current_context, time_msec; simpl.
    rewrite Hcur; simpl. now eexists _, _.
Qed.

Variables (m1 : Measure.obj) (w1 : World).
Hypothesis Hacq :
  Measure.__enter__ (Measure.__init__ clock name) w0 = (Return m1, w1).

(** What a completed Acquire establishes. *)
Lemma enter_inv :
  exists c,
    Measure.start_context m1 = Some c /\
    Measure.start m1 = Some (clock_time w0 clock) /\
    Measure.name m1 = name /\
    Measure.clock m1 = clock /\
    snapshot_of m1 (contexts w1 c) /\
    ((current w0 = Some c /\ Measure.created_context m1 = false /\ w1 = w0)
     \/
     (current w0 = None /\ c = next_ref w0 /\
      Measure.created_context m1 = true /\
      current w1 = Some c /\
      trace w1 = (trace w0 ++ [Created c; Entered c])%list)).
Proof.
  destruct (current w0) as [c|] eqn:Hcur.
  - rewrite (enter_borrows c Hcur) in Hacq.
    injection Hacq as <- <-. exists c; simpl.
    repeat split. left. now repeat split.
  - revert Hacq.
    unfold Measure.__enter__, Measure.establish_context, bind,
      current_context, time_msec; simpl.
    rewrite Hcur; simpl.
    intros [= <- <-]. exists (next_ref w0); simpl.
    repeat split. right. repeat split.
    now rewrite <- app_assoc.
Qed.
End Acquire.

(** ** The two outcomes of a Release that follows an Acquire *)


(** Release found another context (or none) active. *)
Definition drifted (m : Measure.obj) (s : Z) (c : ctx_ref) (w : World)
  : World :=
  add_log (context_changed_warning (Some c) (current w) (Measure.name m))
    (counted m s w).

(** Release found the baseline context [c] active; [o] is that context as
    it was at Acquire. *)
Definition measured (m : Measure.obj) (s : Z) (c : ctx_ref)
  (o : LoggingContext.obj) (w : World) : World :=
  torn_down m c
    (usage_recorded m c
       (LoggingContext.ru_utime o) (LoggingContext.ru_stime o)
       (LoggingContext.db_txn_count o) (LoggingContext.db_txn_duration_ms o)
       (LoggingContext.db_sched_duration_ms o)
       (counted m s w)).

Lemma counts_torn_down m c w : counts (torn_down m c w) = counts w.
Proof. unfold torn_down. now destruct (Measure.created_context m). Qed.

Lemma log_torn_down m c w : log (torn_down m c w) = log w.
Proof. unfold torn_down. now destruct (Measure.created_context m). Qed.

Lemma trace_torn_down m c w :
  trace (torn_down m c w)
  = if Measure.created_context m then (trace w ++ [Exited c])%list
    else trace w.
Proof. unfold torn_down. now destruct (Measure.created_context m). Qed.

Lemma counts_drifted m s c w : counts (drifted m s c w) = counts (counted m s w).
Proof. reflexivity. Qed.

Lemma counts_measured m s c o w :
  counts (measured m s c o w)
  = counts
      (usage_recorded m c
         (LoggingContext.ru_utime o) (LoggingContext.ru_stime o)
         (LoggingContext.db_txn_count o)
         (LoggingContext.db_txn_duration_ms o)
         (LoggingContext.db_sched_duration_ms o)
         (counted m s w)).
Proof. apply counts_torn_down. Qed.

(** The two unconditional increments. *)
Lemma count_counted_block m s w :
  count (counts (counted m s w) block_counter) (Measure.name m)
  = (count (counts w block_counter) (Measure.name m) + 1)%Q.
Proof. unfold counted. other_counters. apply count_bump. Qed.

Lemma count_counted_timer m s w :
  count (counts (counted m s w) block_timer) (Measure.name m)
  = (count (counts w block_timer) (Measure.name m)
     + inject_Z (clock_time w (Measure.clock m) - s))%Q.
Proof. unfold counted. rewrite count_bump. now other_counters. Qed.

Lemma counts_counted_resource m s w k :
  In k resource_counters -> counts (counted m s w) k = counts w k.
Proof.
  intros Hk. unfold counted.
  simpl in Hk; decompose [or] Hk; subst; try contradiction; now other_counters.
Qed.

Lemma lookup_counted_ne m s w k label :
  label <> Measure.name m ->
  counts (counted m s w) k !! label = counts w k !! label.
Proof. intros Hne. unfold counted. now other_labels. Qed.

Lemma count_counted_le m s w k label :
  (s <= clock_time w (Measure.clock m))%Z ->
  (count (counts w k) label <= count (counts (counted m s w) k) label)%Q.
Proof.
  intros Hs. unfold counted.
  eapply Qle_trans; [|apply count_bump_le].
  - apply count_bump_le. lra.
  - change 0%Q with (inject_Z 0). rewrite <- Zle_Qle.
    change (clock_time (bump block_counter 1 (Measure.name m) w))
      with (clock_time w). lia.
Qed.

Lemma usage_recorded_frame m c u0 s0 n0 d0 sd0 w k :
  ~ In k resource_counters ->
  counts (usage_recorded m c u0 s0 n0 d0 sd0 w) k = counts w k.
Proof.
  intros Hk. unfold usage_recorded; cbv zeta.
  destruct k; try (exfalso; apply Hk; simpl; tauto); now other_counters.
Qed.

Lemma lookup_usage_recorded_ne m c u0 s0 n0 d0 sd0 w k label :
  label <> Measure.name m ->
  counts (usage_recorded m c u0 s0 n0 d0 sd0 w) k !! label
  = counts w k !! label.
Proof. intros Hne. unfold usage_recorded; cbv zeta. now other_labels. Qed.

Lemma Qdelta_nonneg (a b : Q) : (a <= b -> 0 <= b - a)%Q.
Proof. intros H. lra. Qed.

Lemma Qdelta_seconds_nonneg (a b : Q) : (a <= b -> 0 <= (b - a) / 1000)%Q.
Proof.
  intros H. unfold Qdiv. apply Qmult_le_0_compat; [lra|].
  compute. discriminate.
Qed.

Lemma count_usage_recorded_le m c o w k label :
  totals_le o (contexts w c) ->
  (count (counts w k) label
   <= count
        (counts
           (usage_recorded m c
              (LoggingContext.ru_utime o) (LoggingContext.ru_stime o)
              (LoggingContext.db_txn_count o)
              (LoggingContext.db_txn_duration_ms o)
              (LoggingContext.db_sched_duration_ms o) w) k) label)%Q.
Proof.
  intros (Hu & Hs & Hn & Hd & Hsd). unfold usage_recorded; cbv zeta.
  repeat (eapply Qle_trans; [|apply count_bump_le]);
    [apply Qle_refl | ..];
    auto using Qdelta_nonneg, Qdelta_seconds_nonneg.
Qed.

Section Cycle.
Context {A : Type}.
Variables (clock : Clock) (name : string) (w0 : World).
Variables (m1 : Measure.obj) (w1 : World).
Hypothesis Hacq :
  Measure.__enter__ (Measure.__init__ clock name) w0 = (Return m1, w1).
Variables (r : outcome A) (w2 : World).

(** Release after Acquire returns [None] and takes one of two paths,
    chosen by whether the baseline context is still the active one. *)
Lemma release_cases :
  exists c,
    Measure.start_context m1 = Some c /\
    Measure.name m1 = name /\
    Measure.clock m1 = clock /\
    ((current w2 <> Some c /\
      call_exit m1 r w2
      = (Return PyNone, drifted m1 (clock_time w0 clock) c w2))
     \/
     (current w2 = Some c /\
      call_exit m1 r w2
      = (Return PyNone,
         measured m1 (clock_time w0 clock) c (contexts w1 c) w2))).
Proof.
  destruct (enter_inv _ _ _ _ _ Hacq)
    as (c & Hsc & Hstart & Hname & Hclock & Hsnap & _).
  destruct Hsnap as (H1 & H2 & H3 & H4 & H5).
  destruct (call_exit_args m1 r) as (t & v & tb & Ht & ->).
  exists c. repeat split; try assumption.
  destruct (decide (current w2 = Some c)) as [Hcur|Hcur]; [right|left];
    (split; [assumption|]).
  - now apply exit_stable.
  - now apply exit_mismatch.
Qed.
End Cycle.

(** ** One Acquire/Release cycle

    [w0] is the world at Acquire, [w1] the world Acquire leaves, [w2] the
    world in which Release runs, after the wrapped work had outcome [r]. *)

Section CycleProperties.
Context {A : Type}.
Variables (clock : Clock) (name : string) (w0 : World).
Variables (m1 : Measure.obj) (w1 : World).
Hypothesis Hacq :
  Measure.__enter__ (Measure.__init__ clock name) w0 = (Return m1, w1).
Variables (r : outcome A) (w2 : World).

(** The amount line 136 adds to [block_time_seconds]: the elapsed
    milliseconds themselves. *)
Lemma release_block_timer :
  exists w3,
    call_exit m1 r w2 = (Return PyNone, w3) /\
    count (counts w3 block_timer) name
    = (count (counts w2 block_timer) name
       + inject_Z (clock_time w2 clock - clock_time w0 clock))%Q.
Proof.
  destruct (release_cases _ _ _ _ _ Hacq r w2)
    as (c & Hsc & <- & <- & [[Hcur ->]|[Hcur ->]]);
    eexists; (split; [reflexivity|]).
  - rewrite counts_drifted. apply count_counted_timer.
  - rewrite counts_measured, usage_recorded_frame
      by (simpl; intuition discriminate).
    apply count_counted_timer.
Qed.

(** C6: whatever context is active at Release (the same one, another
    one, or none), Release returns and has incremented [block_count] for
    the block's name by exactly 1. *)
Theorem release_counts_block :
  exists w3,
    call_exit m1 r w2 = (Return PyNone, w3) /\
    (count (counts w3 block_counter) name
     == count (counts w2 block_counter) name + 1)%Q.
Proof.
  destruct (release_cases _ _ _ _ _ Hacq r w2)
    as (c & Hsc & <- & _ & [[Hcur ->]|[Hcur ->]]);
    eexists; (split; [reflexivity|]).
  - now rewrite counts_drifted, count_counted_block.
  - rewrite counts_measured, usage_recorded_frame
      by (simpl; intuition discriminate).
    now rewrite count_counted_block.
Qed.

(** C2: when the context active at Release is not the one captured at
    Acquire, the five resource/DB counters are left as they were, one
    warning carrying the block's name and both contexts is logged, no
    context is exited and the active context stays as found, while
    [block_count] has grown by 1 and [block_time_seconds] by the elapsed
    time as line 136 computes it. *)
Theorem release_context_changed :
  current w2 <> Measure.start_context m1 ->
  exists w3,
    call_exit m1 r w2 = (Return PyNone, w3) /\
    (forall k, In k resource_counters -> counts w3 k = counts w2 k) /\
    log w3
    = (log w2
       ++ [context_changed_warning (Measure.start_context m1) (current w2)
             name])%list /\
    trace w3 = trace w2 /\
    current w3 = current w2 /\
    contexts w3 = contexts w2 /\
    (count (counts w3 block_counter) name
     == count (counts w2 block_counter) name + 1)%Q /\
    (count (counts w3 block_timer) name
     == count (counts w2 block_timer) name
        + inject_Z (clock_time w2 clock - clock_time w0 clock))%Q.
Proof.
  intros Hneq.
  destruct (release_cases _ _ _ _ _ Hacq r w2)
    as (c & Hsc & <- & <- & [[Hcur ->]|[Hcur _]]);
    [|congruence].
  eexists; split; [reflexivity|]. rewrite Hsc.
  repeat split.
  - intros k Hk. rewrite counts_drifted. now apply counts_counted_resource.
  - now rewrite counts_drifted, count_counted_block.
  - now rewrite counts_drifted, count_counted_timer.
Qed.

(** C9: if the clock did not go back between Acquire and Release and
    none of the baseline context's five running totals decreased, then
    Release returns and no count of any counter, for any label, is
    smaller after Release than before. *)
Theorem release_never_decrements :
  (clock_time w0 clock <= clock_time w2 clock)%Z ->
  (forall c, Measure.start_context m1 = Some c ->
             totals_le (contexts w1 c) (contexts w2 c)) ->
  exists w3,
    call_exit m1 r w2 = (Return PyNone, w3) /\
    forall k label,
      (count (counts w2 k) label <= count (counts w3 k) label)%Q.
Proof.
  intros Hclock Htotals.
  destruct (release_cases _ _ _ _ _ Hacq r w2)
    as (c & Hsc & _ & <- & [[Hcur ->]|[Hcur ->]]);
    eexists; (split; [reflexivity|]); intros k label.
  - rewrite counts_drifted. now apply count_counted_le.
  - rewrite counts_measured.
    eapply Qle_trans; [apply (count_counted_le m1); eassumption|].
    apply count_usage_recorded_le. now apply Htotals.
Qed.
End CycleProperties.

Section Ownership.
Context {A : Type}.
Variables (clock : Clock) (name : string) (w0 : World).
Variables (m1 : Measure.obj) (w1 : World).
Hypothesis Hacq :
  Measure.__enter__ (Measure.__init__ clock name) w0 = (Return m1, w1).

(** The increment of line 135. *)
Lemma release_block_counter (r : outcome A) (w2 : World) :
  exists w3,
    call_exit m1 r w2 = (Return PyNone, w3) /\
    count (counts w3 block_counter) name
    = (count (counts w2 block_counter) name + 1)%Q.
Proof.
  destruct (release_cases _ _ _ _ _ Hacq r w2)
    as (c & Hsc & <- & _ & [[Hcur ->]|[Hcur ->]]);
    eexists; (split; [reflexivity|]).
  - rewrite counts_drifted. apply count_counted_block.
  - rewrite counts_measured, usage_recorded_frame
      by (simpl; intuition discriminate).
    apply count_counted_block.
Qed.

(** What Release logs after an Acquire: nothing, or the warning of
    line 141. *)
Lemma release_log (r : outcome A) (w2 : World) :
  exists c w3,
    Measure.start_context m1 = Some c /\
    call_exit m1 r w2 = (Return PyNone, w3) /\
    ((current w2 = Some c /\ log w3 = log w2) \/
     (current w2 <> Some c /\
      log w3
      = (log w2 ++ [context_changed_warning (Some c) (current w2) name])
          %list)).
Proof.
  destruct (release_cases _ _ _ _ _ Hacq r w2)
    as (c & Hsc & <- & _ & [[Hcur ->]|[Hcur ->]]);
    exists c; eexists; (do 2 (split; [reflexivity || assumption|])).
  - now right.
  - left. split; [assumption|]. unfold measured. now rewrite log_torn_down.
Qed.

(** C3: an Acquire that finds no active context creates a context that
    did not exist, enters it and marks it as owned; at Release that
    context is exited exactly once if it is still the active one, and
    not at all if anything else is. *)
Theorem acquire_owns_created_context :
  current w0 = None ->
  exists c,
    c = next_ref w0 /\
    Measure.start_context m1 = Some c /\
    Measure.created_context m1 = true /\
    current w1 = Some c /\
    trace w1 = (trace w0 ++ [Created c; Entered c])%list /\
    forall (r : outcome A) (w2 : World),
    exists w3,
      call_exit m1 r w2 = (Return PyNone, w3) /\
      (current w2 = Some c -> trace w3 = (trace w2 ++ [Exited c])%list) /\
      (current w2 <> Some c -> trace w3 = trace w2).
Proof.
  intros Hnone.
  destruct (enter_inv _ _ _ _ _ Hacq)
    as (c & Hsc & _ & _ & _ & _ & [[Hcur _]|(_ & Hc & Hcr & Hcur & Htr)]);
    [congruence|].
  exists c. do 5 (split; [assumption|]).
  intros r w2.
  destruct (release_cases _ _ _ _ _ Hacq r w2)
    as (c' & Hsc' & _ & _ & Hcases).
  assert (c' = c) as -> by congruence.
  destruct Hcases as [[Hw2 ->]|[Hw2 ->]];
    eexists; (split; [reflexivity|]); split; intros Hw2'; try congruence.
  - reflexivity.
  - unfold measured. now rewrite trace_torn_down, Hcr.
Qed.

(** C7, as the code has it: when no context is active at Release, the
    block reports the context-changed warning of line 141, naming the
    block, the baseline context and the absent one, and stops: the five
    resource/DB counters are left as they were and no context is
    exited. *)
Theorem release_context_absent (r : outcome A) (w2 : World) :
  current w2 = None ->
  exists w3,
    call_exit m1 r w2 = (Return PyNone, w3) /\
    log w3
    = (log w2
       ++ [context_changed_warning (Measure.start_context m1) None name])
        %list /\
    (forall k, In k resource_counters -> counts w3 k = counts w2 k) /\
    trace w3 = trace w2 /\
    current w3 = None.
Proof.
  intros Hnone.
  destruct (release_cases _ _ _ _ _ Hacq r w2)
    as (c & Hsc & <- & _ & [[Hcur ->]|[Hcur _]]);
    [|congruence].
  eexists; split; [reflexivity|]. rewrite Hsc.
  unfold drifted. rewrite Hnone. repeat split; try assumption.
  intros k Hk. now apply counts_counted_resource.
Qed.

(** C10: after a completed Acquire the baseline context is a context,
    either the one that was active or the one the block created and
    entered; so an absent context at Release differs from it and gets
    the warning of line 141, and no Release logs the warning of
    line 148. *)
Theorem absence_branch_unreachable :
  exists c,
    Measure.start_context m1 = Some c /\
    (current w0 = Some c \/
     (current w0 = None /\ Measure.created_context m1 = true /\
      current w1 = Some c)) /\
    forall (r : outcome A) (w2 : World),
    exists w3,
      call_exit m1 r w2 = (Return PyNone, w3) /\
      (current w2 = None ->
       current w2 <> Measure.start_context m1 /\
       log w3
       = (log w2 ++ [context_changed_warning (Some c) None name])%list) /\
      exists new,
        log w3 = (log w2 ++ new)%list /\
        forall args, ~ In (Warn "Expected context. (%r)" args) new.
Proof.
  destruct (enter_inv _ _ _ _ _ Hacq)
    as (c & Hsc & _ & _ & _ & _ & Horigin).
  exists c. split; [assumption|]. split.
  { destruct Horigin as [(? & _)|(? & _ & ? & ? & _)]; auto. }
  intros r w2.
  destruct (release_log r w2) as (c' & w3 & Hsc' & Hexit & Hlog).
  assert (c' = c) as -> by congruence.
  exists w3. split; [assumption|]. split.
  - intros Hnone. rewrite Hsc. split; [congruence|].
    destruct Hlog as [[Hcur _]|[_ Hlog]]; [congruence|].
    now rewrite Hlog, Hnone.
  - destruct Hlog as [[_ Hlog]|[_ Hlog]].
    + exists []. rewrite app_nil_r. split; [assumption|]. now intros args.
    + eexists. split; [exact Hlog|].
      intros args [Heq|[]]. discriminate Heq.
Qed.
End Ownership.

(** C8: a Release on a block whose baseline context was never recorded
    returns [None] and leaves the world as it is: no counter, no log
    record, no context event, no change of the active context. *)
Theorem release_without_acquire
  (self : Measure.obj) (exc_type exc_val exc_tb : PyObject) (w : World) :
  Measure.start_context self = None ->
  Measure.__exit__ self exc_type exc_val exc_tb w = (Return PyNone, w).
Proof. apply exit_unacquired. Qed.

(** What [measured_func] does when the wrapped method raises. *)
Lemma measured_func_raises {Self Args R : Type} (clock_of : Self -> Clock)
  (name : string) (func : Self -> Args -> M R) (self : Self) (args : Args)
  (w0 w3 : World) (e : PyException) :
  with_Measure (clock_of self) name (func self args) w0 = (Raise e, w3) ->
  measured_func clock_of name func self args w0 = (Raise e, w3).
Proof. intros Hwith. unfold measured_func, bind. now rewrite Hwith. Qed.

(** C4, as the code has it: when the wrapped work fails with [e], directly
    in a [with] block or through [measure_func], Release has run
    ([block_count] for the block's name is 1 more than when the work
    failed).  The [with] block then raises the very same [e]; the Deferred
    of [measure_func] fails with the very same [e] unless [e] is a
    [StopIteration] or a [_DefGen_Return], the two exceptions the driver
    of [inlineCallbacks] takes for the end of the generator. *)
Theorem failure_is_counted_and_propagates {Self Args R : Type}
  (pep479 : bool) (clock_of : Self -> Clock) (name : string)
  (func : Self -> Args -> M R) (self : Self) (args : Args)
  (w0 w1 w2 : World) (m1 : Measure.obj) (e : PyException) :
  Measure.__enter__ (Measure.__init__ (clock_of self) name) w0
  = (Return m1, w1) ->
  func self args w1 = (Raise e, w2) ->
  exists w3,
    with_Measure (clock_of self) name (func self args) w0 = (Raise e, w3) /\
    (count (counts w3 block_counter) name
     == count (counts w2 block_counter) name + 1)%Q /\
    snd (measure_func pep479 clock_of name func self args w0) = w3 /\
    (isinstance_of e "StopIteration" = false ->
     isinstance_of e "_DefGen_Return" = false ->
     measure_func pep479 clock_of name func self args w0 = (Raise e, w3)).
Proof.
  intros Hacq Hwork.
  destruct (release_block_counter _ _ _ _ _ Hacq (@Raise R e) w2)
    as (w3 & Hexit & Hcount).
  assert (with_Measure (clock_of self) name (func self args) w0
          = (Raise e, w3)) as Hwith.
  { unfold with_Measure. now rewrite Hacq, Hwork, Hexit. }
  pose proof (measured_func_raises _ _ _ _ _ _ _ _ Hwith) as Hgen.
  exists w3. split; [assumption|]. split; [now rewrite Hcount|].
  unfold measure_func, inlineCallbacks. rewrite Hgen. split; [reflexivity|].
  intros Hstop Hret. unfold delivered, generator_exit.
  rewrite Hstop, andb_false_r. now rewrite Hstop, Hret.
Qed.

(** ** The scenario, run *)

Lemma acquire_x :
  Measure.__enter__ (Measure.__init__ 0 "x") world0 = (Return block_x, world1).
Proof. reflexivity. Defined.

(** The counts for "x" after the scenario's Release, and the creation and
    tear-down of the block's own context. *)
Example scenario :
  exists w3,
    with_Measure 0 "x" (work 1300 0 2 400) world0 = (Return (Some tt), w3) /\
    (count (counts w3 block_counter) "x" == 1)%Q /\
    (count (counts w3 block_timer) "x" == 300)%Q /\
    (count (counts w3 block_db_txn_count) "x" == 2)%Q /\
    (count (counts w3 block_db_txn_duration) "x" == 4 # 10)%Q /\
    trace w3 = [Created 0; Entered 0; Exited 0] /\
    current w3 = None /\
    log w3 = [].
Proof.
  exists (snd (with_Measure 0 "x" (work 1300 0 2 400) world0)).
  split; [now vm_compute|].
  repeat split; now vm_compute.
Qed.

(** C1: in the scenario (Acquire at 1000 ms, Release at 1300 ms, so
    D = 300) Release adds 300 to [block_time_seconds] for "x", which is
    not D/1000 = 0.3. *)
Theorem block_time_is_incremented_by_milliseconds :
  Measure.__enter__ (Measure.__init__ 0 "x") world0 = (Return block_x, world1)
  /\ (clock_time world2 0%nat - clock_time world0 0%nat = 300)%Z
  /\ exists w3,
       call_exit block_x (Return tt) world2 = (Return PyNone, w3) /\
       (count (counts w3 block_timer) "x"
        == count (counts world2 block_timer) "x" + 300)%Q /\
       ~ (count (counts w3 block_timer) "x"
          == count (counts world2 block_timer) "x" + 300 / 1000)%Q.
Proof.
  do 2 (split; [reflexivity|]).
  destruct (release_block_timer _ _ _ _ _ acquire_x (Return tt) world2)
    as (w3 & Hexit & Hcount).
  exists w3. split; [assumption|].
  rewrite Hcount. split.
  - reflexivity.
  - vm_compute. discriminate.
Qed.

(** C7, as stated, fails: with no context active at Release, the record
    logged is the context-changed warning of line 141, not the
    "Expected context" warning of line 148. *)
Lemma absent_context_is_reported_as_changed :
  Measure.__enter__ (Measure.__init__ 0 "x") world0 = (Return block_x, world1)
  /\ current world2_absent = None
  /\ exists w3,
       call_exit block_x (Return tt) world2_absent = (Return PyNone, w3) /\
       log w3 = [context_changed_warning (Some 0) None "x"] /\
       log w3 <> (log world2_absent ++ [expected_context_warning "x"])%list.
Proof.
  do 2 (split; [reflexivity|]).
  eexists. split; [reflexivity|]. split; [reflexivity|].
  simpl. discriminate.
Qed.

(** ** Instances on the scenario *)

Lemma release_counts_block_witness :
  Measure.__enter__ (Measure.__init__ 0 "x") world0 = (Return block_x, world1)
  /\ exists w3,
       call_exit block_x (Return tt) world2_drifted = (Return PyNone, w3) /\
       (count (counts w3 block_counter) "x"
        == count (counts world2_drifted block_counter) "x" + 1)%Q.
Proof.
  split; [reflexivity|].
  apply (release_counts_block 0 "x" world0 block_x world1); reflexivity.
Defined.

Lemma release_context_changed_witness :
  current world2_drifted <> Measure.start_context block_x
  /\ exists w3,
       call_exit block_x (Return tt) world2_drifted = (Return PyNone, w3) /\
       (forall k, In k resource_counters ->
                  counts w3 k = counts world2_drifted k) /\
       log w3
       = (log world2_drifted
          ++ [context_changed_warning (Some 0) (Some 7) "x"])%list /\
       trace w3 = trace world2_drifted /\
       current w3 = current world2_drifted /\
       contexts w3 = contexts world2_drifted /\
       (count (counts w3 block_counter) "x"
        == count (counts world2_drifted block_counter) "x" + 1)%Q /\
       (count (counts w3 block_timer) "x"
        == count (counts world2_drifted block_timer) "x"
           + inject_Z (1300 - 1000))%Q.
Proof.
  split; [simpl; discriminate|].
  apply (release_context_changed 0 "x" world0 block_x world1);
    [reflexivity | simpl; discriminate].
Defined.

Lemma release_never_decrements_witness :
  (clock_time world0 0%nat <= clock_time world2 0%nat)%Z
  /\ totals_le (contexts world1 0) (contexts world2 0)
  /\ exists w3,
       call_exit block_x (Return tt) world2 = (Return PyNone, w3) /\
       forall k label,
         (count (counts world2 k) label <= count (counts w3 k) label)%Q.
Proof.
  assert (totals_le (contexts world1 0) (contexts world2 0)) as Htotals.
  { vm_compute. repeat split; discriminate. }
  split; [vm_compute; discriminate|]. split; [exact Htotals|].
  apply (release_never_decrements 0 "x" world0 block_x world1);
    [reflexivity | vm_compute; discriminate |].
  intros c [= <-]. exact Htotals.
Defined.

Lemma acquire_owns_created_context_witness :
  current world0 = None
  /\ exists c,
       c = next_ref world0 /\
       Measure.start_context block_x = Some c /\
       Measure.created_context block_x = true /\
       current world1 = Some c /\
       trace world1 = (trace world0 ++ [Created c; Entered c])%list /\
       forall (r : outcome unit) (w2 : World),
       exists w3,
         call_exit block_x r w2 = (Return PyNone, w3) /\
         (current w2 = Some c -> trace w3 = (trace w2 ++ [Exited c])%list) /\
         (current w2 <> Some c -> trace w3 = trace w2).
Proof.
  split; [reflexivity|].
  apply (acquire_owns_created_context 0 "x" world0 block_x world1);
    reflexivity.
Defined.

Lemma release_context_absent_witness :
  current world2_absent = None
  /\ exists w3,
       call_exit block_x (Return tt) world2_absent = (Return PyNone, w3) /\
       log w3
       = (log world2_absent
          ++ [context_changed_warning (Some 0) None "x"])%list /\
       (forall k, In k resource_counters ->
                  counts w3 k = counts world2_absent k) /\
       trace w3 = trace world2_absent /\
       current w3 = None.
Proof.
  split; [reflexivity|].
  apply (release_context_absent 0 "x" world0 block_x world1); reflexivity.
Defined.

Lemma absence_branch_unreachable_witness :
  Measure.__enter__ (Measure.__init__ 0 "x") world0 = (Return block_x, world1)
  /\ exists c,
       Measure.start_context block_x = Some c /\
       (current world0 = Some c \/
        (current world0 = None /\ Measure.created_context block_x = true /\
         current world1 = Some c)) /\
       forall (r : outcome unit) (w2 : World),
       exists w3,
         call_exit block_x r w2 = (Return PyNone, w3) /\
         (current w2 = None ->
          current w2 <> Measure.start_context block_x /\
          log w3
          = (log w2 ++ [context_changed_warning (Some c) None "x"])%list) /\
         exists new,
           log w3 = (log w2 ++ new)%list /\
           forall args, ~ In (Warn "Expected context. (%r)" args) new.
Proof.
  split; [reflexivity|].
  apply (absence_branch_unreachable 0 "x" world0 block_x world1); reflexivity.
Defined.

Lemma release_without_acquire_witness :
  Measure.start_context (Measure.__init__ 0 "x") = None
  /\ Measure.__exit__ (Measure.__init__ 0 "x") PyNone PyNone PyNone world2
     = (Return PyNone, world2).
Proof.
  split; [reflexivity|].
  apply (release_without_acquire (Measure.__init__ 0 "x")); reflexivity.
Defined.

Lemma failure_is_counted_and_propagates_witness :
  failing_work tt tt world1 = (Raise ValueError, world2_failed)
  /\ isinstance_of ValueError "StopIteration" = false
  /\ isinstance_of ValueError "_DefGen_Return" = false
  /\ exists w3,
       with_Measure 0 "x" (failing_work tt tt) world0 = (Raise ValueError, w3)
       /\ (count (counts w3 block_counter) "x"
           == count (counts world2_failed block_counter) "x" + 1)%Q
       /\ snd (measure_func false (fun _ : unit => 0) "x" failing_work tt tt
                 world0) = w3
       /\ measure_func false (fun _ : unit => 0) "x" failing_work tt tt world0
          = (Raise ValueError, w3).
Proof.
  do 3 (split; [reflexivity|]).
  destruct (failure_is_counted_and_propagates false
              (fun _ : unit => 0) "x" failing_work tt tt world0 world1
              world2_failed block_x ValueError eq_refl eq_refl)
    as (w3 & Hwith & Hcount & Hworld & Hsame).
  exists w3. repeat split; try assumption.
  apply Hsame; reflexivity.
Defined.

(** C4, as stated, fails through [measure_func]: a [StopIteration] raised
    by the wrapped method does not reach the caller.  On Python 2 the
    Deferred fires as if the method had returned; under PEP 479 it fails
    with a [RuntimeError] instead.  Release has run in both cases. *)
Lemma stop_iteration_does_not_reach_the_caller :
  stopping_work tt tt world1 = (Raise StopIteration, world2_failed)
  /\ fst (measure_func false (fun _ : unit => 0) "x" stopping_work tt tt
            world0)
     = Return (SignalValue StopIteration)
  /\ fst (measure_func true (fun _ : unit => 0) "x" stopping_work tt tt
            world0)
     = Raise (RuntimeError "generator raised StopIteration")
  /\ (count
        (counts
           (snd (measure_func false (fun _ : unit => 0%nat) "x"
                   stopping_work tt tt world0)) block_counter) "x"
      == count (counts world2_failed block_counter) "x" + 1)%Q.
Proof. repeat split; now vm_compute. Qed.

(** * Further properties of the block *)

(** ** What Acquire and Release leave alone *)

Section AcquireFrame.
Variables (clock : Clock) (name : string) (w0 : World).
Variables (m1 : Measure.obj) (w1 : World).
Hypothesis Hacq :
  Measure.__enter__ (Measure.__init__ clock name) w0 = (Return m1, w1).

Lemma enter_frame :
  counts w1 = counts w0 /\ log w1 = log w0 /\
  clock_time w1 = clock_time w0 /\
  (forall r, r <> next_ref w0 -> contexts w1 r = contexts w0 r) /\
  (forall e, In e (trace w1) -> In e (trace w0) \/
             e = Created (next_ref w0) \/ e = Entered (next_ref w0)).
Proof.
  destruct (current w0) as [c|] eqn:Hcur.
  - rewrite (enter_borrows _ _ _ c Hcur) in Hacq.
    injection Hacq as <- <-. repeat split; auto.
  - revert Hacq.
    unfold Measure.__enter__, Measure.establish_context, bind,
      current_context, time_msec; simpl.
    rewrite Hcur; simpl.
    intros [= <- <-]; simpl.
    repeat split.
    + intros r Hr. now rewrite !decide_False.
    + intros e He. rewrite !in_app_iff in He. simpl in He. intuition auto.
Qed.

(** The context a block created has nothing to fall back to. *)
Lemma enter_created_previous :
  current w0 = None ->
  LoggingContext.previous_context (contexts w1 (next_ref w0)) = None.
Proof.
  intros Hcur. revert Hacq.
  unfold Measure.__enter__, Measure.establish_context, bind,
    current_context, time_msec; simpl.
  rewrite Hcur; simpl.
  intros [= <- <-]; simpl.
  now rewrite decide_True.
Qed.

End AcquireFrame.

(** X2: Acquire changes no counter, logs nothing, leaves the clock alone
    and does not modify any context object that existed before it; the
    only context events it can add are the creation and the entering of
    one new context. *)
Theorem acquire_touches_only_its_own_context (clock : Clock)
  (name : string) (w0 w1 : World) (m1 : Measure.obj) :
  Measure.__enter__ (Measure.__init__ clock name) w0 = (Return m1, w1) ->
  counts w1 = counts w0 /\ log w1 = log w0 /\
  clock_time w1 = clock_time w0 /\
  (forall r, r <> next_ref w0 -> contexts w1 r = contexts w0 r) /\
  (forall e, In e (trace w1) -> In e (trace w0) \/
             e = Created (next_ref w0) \/ e = Entered (next_ref w0)) /\
  (current w0 <> None -> w1 = w0).
Proof.
  intros Hacq.
  destruct (enter_frame _ _ _ _ _ Hacq) as (H1 & H2 & H3 & H4 & H5).
  do 5 (split; [assumption|]).
  intros Hcur. destruct (current w0) as [c|] eqn:Hc; [|congruence].
  rewrite (enter_borrows _ _ _ c Hc) in Hacq. now injection Hacq.
Qed.

Lemma torn_down_frame m c w :
  clock_time (torn_down m c w) = clock_time w /\
  next_ref (torn_down m c w) = next_ref w /\
  (forall r, running_totals (contexts (torn_down m c w) r)
             = running_totals (contexts w r)).
Proof.
  unfold torn_down. destruct (Measure.created_context m); [|now repeat split].
  repeat split. intros r.
  cbn [contexts LoggingContext_exit snd add_event set_current store_context].
  now destruct (decide (r = c)) as [->|].
Qed.

Lemma lookup_measured_ne m s c o w k label :
  label <> Measure.name m ->
  counts (measured m s c o w) k !! label = counts w k !! label.
Proof.
  intros Hne.
  now rewrite counts_measured, lookup_usage_recorded_ne, lookup_counted_ne.
Qed.

Lemma lookup_drifted_ne m s c w k label :
  label <> Measure.name m ->
  counts (drifted m s c w) k !! label = counts w k !! label.
Proof. intros Hne. rewrite counts_drifted. now apply lookup_counted_ne. Qed.

Section ReleaseFrame.
Context {A : Type}.
Variables (clock : Clock) (name : string) (w0 : World).
Variables (m1 : Measure.obj) (w1 : World).
Hypothesis Hacq :
  Measure.__enter__ (Measure.__init__ clock name) w0 = (Return m1, w1).
Variables (r : outcome A) (w2 : World).

(** X7: whatever path Release takes after an Acquire, it changes no count
    under any label other than the block's name, does not move the clock,
    changes no running total of any context, allocates no context, and
    adds at most one context event, the exit of the baseline context. *)
Theorem release_touches_only_its_own_label :
  exists c w3,
    Measure.start_context m1 = Some c /\
    call_exit m1 r w2 = (Return PyNone, w3) /\
    (forall k label,
       label <> name -> counts w3 k !! label = counts w2 k !! label) /\
    clock_time w3 = clock_time w2 /\
    next_ref w3 = next_ref w2 /\
    (forall x, running_totals (contexts w3 x)
               = running_totals (contexts w2 x)) /\
    (trace w3 = trace w2 \/ trace w3 = (trace w2 ++ [Exited c])%list).
Proof.
  destruct (release_cases _ _ _ _ _ Hacq r w2)
    as (c & Hsc & <- & _ & [[Hcur ->]|[Hcur ->]]);
    exists c; eexists; (do 2 (split; [reflexivity || assumption|])).
  - split; [intros; now apply lookup_drifted_ne|]. repeat split. now left.
  - split; [intros; now apply lookup_measured_ne|].
    unfold measured.
    destruct (torn_down_frame m1 c
                (usage_recorded m1 c
                   (LoggingContext.ru_utime (contexts w1 c))
                   (LoggingContext.ru_stime (contexts w1 c))
                   (LoggingContext.db_txn_count (contexts w1 c))
                   (LoggingContext.db_txn_duration_ms (contexts w1 c))
                   (LoggingContext.db_sched_duration_ms (contexts w1 c))
                   (counted m1 (clock_time w0 clock) w2)))
      as (Hclock & Hnext & Htotals).
    split; [exact Hclock|]. split; [exact Hnext|]. split; [exact Htotals|].
    rewrite trace_torn_down.
    destruct (Measure.created_context m1); [now right|now left].
Qed.

(** X1: a block acquired while a context is active only borrows it:
    Acquire leaves the world as it is, and Release, on every path, exits
    no context, does not switch the active context and modifies no
    context object. *)
Theorem borrowed_context_is_left_alone :
  current w0 <> None ->
  w1 = w0 /\
  Measure.start_context m1 = current w0 /\
  Measure.created_context m1 = false /\
  exists w3,
    call_exit m1 r w2 = (Return PyNone, w3) /\
    trace w3 = trace w2 /\
    current w3 = current w2 /\
    contexts w3 = contexts w2.
Proof.
  intros Hactive.
  destruct (enter_inv _ _ _ _ _ Hacq)
    as (c & Hsc & _ & _ & _ & _ & [(Hcur & Hcr & Hw)|(Hcur & _)]);
    [|congruence].
  split; [assumption|]. split; [congruence|]. split; [assumption|].
  destruct (release_cases _ _ _ _ _ Hacq r w2)
    as (c' & Hsc' & _ & _ & [[_ ->]|[_ ->]]);
    eexists; (split; [reflexivity|]).
  - now repeat split.
  - unfold measured, torn_down. rewrite Hcr. now repeat split.
Qed.
End ReleaseFrame.

(** ** Whole blocks *)

Lemma count_usage_recorded m c o w k :
  In k resource_counters ->
  count
    (counts
       (usage_recorded m c
          (LoggingContext.ru_utime o) (LoggingContext.ru_stime o)
          (LoggingContext.db_txn_count o)
          (LoggingContext.db_txn_duration_ms o)
          (LoggingContext.db_sched_duration_ms o) w) k) (Measure.name m)
  = (count (counts w k) (Measure.name m)
     + usage_delta k o (contexts w c))%Q.
Proof.
  intros Hk. unfold usage_recorded; cbv zeta.
  simpl in Hk; decompose [or] Hk; subst; try contradiction;
    other_counters; rewrite count_bump; now other_counters.
Qed.

(** The counts a block's name has after a Release on the measured path. *)
Lemma count_measured m s c o w k :
  count (counts (measured m s c o w) k) (Measure.name m)
  = match k with
    | block_counter => count (counts w k) (Measure.name m) + 1
    | block_timer =>
        count (counts w k) (Measure.name m)
        + inject_Z (clock_time w (Measure.clock m) - s)
    | _ => count (counts w k) (Measure.name m) + usage_delta k o (contexts w c)
    end%Q.
Proof.
  rewrite counts_measured.
  destruct k;
    try (rewrite count_usage_recorded by (simpl; tauto);
         rewrite counts_counted_resource by (simpl; tauto); reflexivity);
    rewrite usage_recorded_frame by (simpl; intuition discriminate).
  - apply count_counted_block.
  - apply count_counted_timer.
Qed.

Lemma usage_delta_same k o : (usage_delta k o o == 0)%Q.
Proof. destruct k; simpl; unfold Qdiv; ring. Qed.

(** X3: a block around work that does nothing returns that work's value,
    adds 1 to [block_count] for its name and nothing to the other six
    counters, touches no other label, logs nothing, and leaves the active
    context as it found it, whether or not it had to create one. *)
Theorem empty_block_counts_once {A : Type} (clock : Clock) (name : string)
  (a : A) (w0 : World) :
  exists w3,
    with_Measure clock name (ret a) w0 = (Return (Some a), w3) /\
    (count (counts w3 block_counter) name
     == count (counts w0 block_counter) name + 1)%Q /\
    (forall k, k <> block_counter ->
               (count (counts w3 k) name == count (counts w0 k) name)%Q) /\
    (forall k label,
       label <> name -> counts w3 k !! label = counts w0 k !! label) /\
    log w3 = log w0 /\
    current w3 = current w0.
Proof.
  destruct (enter_returns clock name w0) as (m1 & w1 & Hacq).
  destruct (enter_frame _ _ _ _ _ Hacq) as (Hcounts & Hlog & Hclock & _).
  pose proof (enter_created_previous _ _ _ _ _ Hacq) as Hprev.
  destruct (enter_inv _ _ _ _ _ Hacq)
    as (c & Hsc & _ & _ & _ & _ & Horigin).
  assert (current w1 = Some c) as Hcur1.
  { destruct Horigin as [(? & _ & ->)|(_ & _ & _ & ? & _)]; assumption. }
  destruct (release_cases _ _ _ _ _ Hacq (Return a) w1)
    as (c' & Hsc' & Hname & Hclk & [[Hcur _]|[_ Hexit]]).
  { exfalso. apply Hcur. congruence. }
  assert (c' = c) as -> by congruence.
  eexists. split.
  { unfold with_Measure. rewrite Hacq. unfold ret at 1. now rewrite Hexit. }
  rewrite <- Hname, <- Hcounts. split; [|split; [|split; [|split]]].
  - now rewrite count_measured.
  - intros k Hk. rewrite count_measured.
    destruct k; try congruence;
      try (rewrite usage_delta_same; ring).
    rewrite Hclk, Hclock, Z.sub_diag. simpl. ring.
  - intros k label Hne. now apply lookup_measured_ne.
  - unfold measured. now rewrite log_torn_down.
  - unfold measured, torn_down.
    destruct Horigin as [(Hcur0 & -> & ->)|(Hcur0 & -> & -> & _)].
    + reflexivity.
    + cbn [current LoggingContext_exit snd add_event set_current].
      cbn [contexts store_context]. rewrite Hcur0. now apply Hprev.
Qed.

Section Restore.
Context {A : Type}.
Variables (clock : Clock) (name : string) (w0 : World).
Variables (m1 : Measure.obj) (w1 : World).
Hypothesis Hacq :
  Measure.__enter__ (Measure.__init__ clock name) w0 = (Return m1, w1).

(** X4: if the work hands back the baseline context as the active one,
    with the link to the context it replaced intact, then after Release
    the active context is the one that was active before Acquire. *)
Theorem release_restores_active_context (r : outcome A) (w2 : World) :
  current w2 = Measure.start_context m1 ->
  (forall c, Measure.start_context m1 = Some c ->
             LoggingContext.previous_context (contexts w2 c)
             = LoggingContext.previous_context (contexts w1 c)) ->
  exists w3,
    call_exit m1 r w2 = (Return PyNone, w3) /\
    current w3 = current w0.
Proof.
  intros Hsame Hlink.
  pose proof (enter_created_previous _ _ _ _ _ Hacq) as Hprev.
  destruct (enter_inv _ _ _ _ _ Hacq)
    as (c & Hsc & _ & _ & _ & _ & Horigin).
  destruct (release_cases _ _ _ _ _ Hacq r w2)
    as (c' & Hsc' & _ & _ & [[Hcur _]|[Hcur ->]]); [congruence|].
  assert (c' = c) as -> by congruence.
  eexists. split; [reflexivity|].
  unfold measured, torn_down.
  destruct Horigin as [(Hcur0 & -> & _)|(Hcur0 & -> & -> & _)].
  - change (current w2 = current w0). congruence.
  - cbn [current LoggingContext_exit snd add_event set_current].
    change (LoggingContext.previous_context (contexts w2 (next_ref w0))
            = current w0).
    rewrite (Hlink _ Hsc), Hcur0. now apply Hprev.
Qed.

(** X5: after an Acquire, a call of [__exit__] returns with the world
    untouched exactly when its [exc_type] argument is an instance of
    [Exception]; with any other argument it changes the world. *)
Theorem release_is_skipped_only_for_exception_instances
  (exc_type exc_val exc_tb : PyObject) (w2 : World) :
  Measure.__exit__ m1 exc_type exc_val exc_tb w2 = (Return PyNone, w2)
  <-> isinstance_Exception exc_type = true.
Proof.
  split.
  - intros Hexit.
    destruct (isinstance_Exception exc_type) eqn:Hexc; [reflexivity|].
    exfalso.
    destruct (enter_inv _ _ _ _ _ Hacq)
      as (c & Hsc & Hstart & _ & _ & (H1 & H2 & H3 & H4 & H5) & _).
    assert (exists w3,
              Measure.__exit__ m1 exc_type exc_val exc_tb w2
              = (Return PyNone, w3) /\
              count (counts w3 block_counter) (Measure.name m1)
              = (count (counts w2 block_counter) (Measure.name m1) + 1)%Q)
      as (w3 & Hw3 & Hcount).
    { destruct (decide (current w2 = Some c)) as [Hcur|Hcur].
      - eexists. split.
        + eapply exit_stable; eassumption.
        + fold (measured m1 (clock_time w0 clock) c (contexts w1 c) w2).
          now rewrite count_measured.
      - eexists. split.
        + eapply exit_mismatch; eassumption.
        + fold (drifted m1 (clock_time w0 clock) c w2).
          rewrite counts_drifted. apply count_counted_block. }
    rewrite Hexit in Hw3. injection Hw3 as <-.
    assert (count (counts w2 block_counter) (Measure.name m1)
            == count (counts w2 block_counter) (Measure.name m1) + 1)%Q
      as Habs by (now rewrite <- Hcount).
    lra.
  - intros Hexc. unfold Measure.__exit__. now rewrite Hexc.
Qed.
End Restore.

(** ** Blocks in callers *)

(** The [with] statement around a block whose Acquire and Release are
    known. *)
Lemma with_Measure_run {A : Type} (clock : Clock) (name : string)
  (work : M A) (w0 w1 w2 w3 : World) (m1 : Measure.obj) (r : outcome A) :
  Measure.__enter__ (Measure.__init__ clock name) w0 = (Return m1, w1) ->
  work w1 = (r, w2) ->
  call_exit m1 r w2 = (Return PyNone, w3) ->
  with_Measure clock name work w0
  = (match r with
     | Return a => Return (Some a)
     | Raise e => Raise e
     end, w3).
Proof.
  intros Hacq Hwork Hexit. unfold with_Measure.
  rewrite Hacq, Hwork, Hexit. now destruct r.
Qed.

(** X6: the Deferred of a method wrapped by [measure_func] gets what the
    driver of [inlineCallbacks] makes of the method's own outcome, the
    method having run in the world Acquire leaves: in particular the value
    [v] when the method returns [v], and never an exception of the
    wrapper's own.  Whatever the outcome, [block_count] for the name is 1
    more than when the method finished. *)
Theorem measured_function_keeps_outcome {Self Args R : Type}
  (pep479 : bool) (clock_of : Self -> Clock) (name : string)
  (func : Self -> Args -> M R) (self : Self) (args : Args)
  (w0 w1 : World) (m1 : Measure.obj) :
  Measure.__enter__ (Measure.__init__ (clock_of self) name) w0
  = (Return m1, w1) ->
  exists w3,
    measure_func pep479 clock_of name func self args w0
    = (delivered pep479 (fst (func self args w1)), w3) /\
    (forall v, fst (func self args w1) = Return v ->
               measure_func pep479 clock_of name func self args w0
               = (Return (Value v), w3)) /\
    (count (counts w3 block_counter) name
     == count (counts (snd (func self args w1)) block_counter) name + 1)%Q.
Proof.
  intros Hacq.
  destruct (func self args w1) as [r w2] eqn:Hwork.
  destruct (release_block_counter _ _ _ _ _ Hacq r w2)
    as (w3 & Hexit & Hcount).
  assert (measure_func pep479 clock_of name func self args w0
          = (delivered pep479 r, w3)) as Hrun.
  { unfold measure_func, inlineCallbacks, measured_func, bind.
    rewrite (with_Measure_run _ _ _ _ _ _ _ _ _ Hacq Hwork Hexit).
    now destruct r. }
  exists w3. split; [exact Hrun|]. split.
  - simpl. intros v ->. exact Hrun.
  - simpl. now rewrite Hcount.
Qed.

Section Nesting.
Variables (clock : Clock) (name : string) (w0 : World).
Variables (m1 : Measure.obj) (w1 : World).
Hypothesis Hacq :
  Measure.__enter__ (Measure.__init__ clock name) w0 = (Return m1, w1).

Lemma enter_nested (clock' : Clock) (name' : string) :
  exists c m2,
    Measure.start_context m1 = Some c /\
    current w1 = Some c /\
    Measure.__enter__ (Measure.__init__ clock' name') w1 = (Return m2, w1) /\
    Measure.start_context m2 = Some c /\
    Measure.created_context m2 = false /\
    Measure.name m2 = name'.
Proof.
  destruct (enter_inv _ _ _ _ _ Hacq)
    as (c & Hsc & _ & _ & _ & _ & Horigin).
  assert (current w1 = Some c) as Hcur1.
  { destruct Horigin as [(? & _ & ->)|(_ & _ & _ & ? & _)]; assumption. }
  exists c. eexists. do 2 (split; [assumption|]).
  split; [exact (enter_borrows clock' name' w1 c Hcur1)|].
  now repeat split.
Qed.

(** X8: a block acquired inside another block, before the active context
    changes, takes the outer block's baseline context as its own: its
    Acquire changes nothing in the world and it does not own the
    context. *)
Theorem inner_block_borrows_outer_context (clock' : Clock) (name' : string) :
  exists m2,
    Measure.__enter__ (Measure.__init__ clock' name') w1 = (Return m2, w1) /\
    Measure.start_context m2 = Measure.start_context m1 /\
    Measure.created_context m2 = false.
Proof.
  destruct (enter_nested clock' name')
    as (c & m2 & Hsc & _ & Henter & Hsc2 & Hcr & _).
  exists m2. split; [assumption|]. split; [congruence|assumption].
Qed.

(** X9: two nested blocks of the same name around work that returns with
    the active context it was started with: the value comes back
    unchanged, nothing is logged, [block_count] for the name grows by 2,
    and the shared context is exited by the outer block only, once, when
    the outer block had created it. *)
Theorem nested_blocks_of_one_name_count_twice {R : Type} (clock' : Clock)
  (work : M R) (a : R) (w2 : World) :
  work w1 = (Return a, w2) ->
  current w2 = current w1 ->
  exists c w4,
    Measure.start_context m1 = Some c /\
    with_Measure clock name (with_Measure clock' name work) w0
    = (Return (Some (Some a)), w4) /\
    (count (counts w4 block_counter) name
     == count (counts w2 block_counter) name + 2)%Q /\
    log w4 = log w2 /\
    trace w4
    = (if Measure.created_context m1 then (trace w2 ++ [Exited c])%list
       else trace w2).
Proof.
  intros Hwork Hkeep.
  destruct (enter_nested clock' name)
    as (c & m2 & Hsc & Hcur1 & Henter2 & Hsc2 & Hcr2 & Hname2).
  destruct (release_cases _ _ _ _ _ Henter2 (Return a) w2)
    as (c2 & Hsc2' & _ & _ & [[Hcur _]|[_ Hexit2]]); [congruence|].
  assert (c2 = c) as -> by congruence.
  set (w3 := measured m2 (clock_time w1 clock') c (contexts w1 c) w2) in *.
  assert (current w3 = Some c /\ trace w3 = trace w2 /\
          log w3 = log w2) as (Hcur3 & Htrace3 & Hlog3).
  { unfold w3, measured, torn_down. rewrite Hcr2.
    repeat split. change (current w2 = Some c). congruence. }
  destruct (release_cases _ _ _ _ _ Hacq (Return (Some a)) w3)
    as (c1 & Hsc1 & Hname1 & _ & [[Hcur _]|[_ Hexit1]]); [congruence|].
  assert (c1 = c) as -> by congruence.
  exists c. eexists. split; [assumption|]. split.
  { eapply (with_Measure_run clock name _ w0 w1 w3 _ m1
              (Return (Some a)) Hacq); [|exact Hexit1].
    exact (with_Measure_run clock' name work w1 w1 w2 w3 m2 (Return a)
             Henter2 Hwork Hexit2). }
  rewrite <- Hname1. split; [|split].
  - rewrite count_measured. unfold w3.
    replace (Measure.name m1) with (Measure.name m2) by congruence.
    rewrite count_measured. ring.
  - unfold measured. now rewrite log_torn_down.
  - unfold measured. rewrite trace_torn_down.
    destruct (Measure.created_context m1); [f_equal|]; exact Htrace3.
Qed.
End Nesting.

(** X10: a caller that runs [n] blocks of one name one after the other,
    around work that returns and does not itself touch [block_count] for
    that name, ends with that count grown by [n]. *)
Theorem measure_each_counts_every_block {R : Type} (clock : Clock)
  (name : string) (works : list (M R)) :
  (forall work, In work works ->
     forall w, exists a w',
       work w = (Return a, w') /\
       (count (counts w' block_counter) name
        == count (counts w block_counter) name)%Q) ->
  forall w0, exists w',
    measure_each clock name works w0 = (Return tt, w') /\
    (count (counts w' block_counter) name
     == count (counts w0 block_counter) name
        + inject_Z (Z.of_nat (length works)))%Q.
Proof.
  induction works as [|work rest IH]; intros Hworks w0.
  - exists w0. split; [reflexivity|]. simpl. ring.
  - destruct (enter_returns clock name w0) as (m1 & w1 & Hacq).
    destruct (enter_frame _ _ _ _ _ Hacq) as (Hcounts & _).
    destruct (Hworks work (or_introl eq_refl) w1) as (a & w2 & Hwork & Hsame).
    destruct (release_block_counter _ _ _ _ _ Hacq (Return a) w2)
      as (w3 & Hexit & Hcount).
    destruct (IH (fun wk Hin => Hworks wk (or_intror Hin)) w3)
      as (w' & Hrest & Hfinal).
    exists w'. split.
    + cbn [measure_each]. unfold bind.
      now rewrite (with_Measure_run _ _ _ _ _ _ _ _ _ Hacq Hwork Hexit).
    + rewrite Hfinal, Hcount, Hsame, Hcounts.
      cbn [length]. rewrite Nat2Z.inj_succ, <- Z.add_1_r, inject_Z_plus.
      ring.
Qed.

(** ** The registrations *)

(** X11: no two of the seven counters are registered under the same
    name, and, whatever the registry's prefix, no deprecated alias is
    given twice, to one counter or to two. *)
Theorem registered_names_are_distinct (name_prefix : string) :
  NoDup (map metric_name all_counters) /\
  NoDup (flat_map (alternative_names name_prefix) all_counters).
Proof.
  split.
  - apply (bool_decide_unpack _). now vm_compute.
  - change (NoDup
              (String.append name_prefix <$>
                 ["_block_timer:count"; "_block_ru_utime:count";
                  "_block_ru_stime:count"; "_block_db_txn_count:count";
                  "_block_db_txn_duration:count"; "_block_timer:total";
                  "_block_ru_utime:total"; "_block_ru_stime:total";
                  "_block_db_txn_count:total";
                  "_block_db_txn_duration:total"])).
    apply (NoDup_fmap_2 (String.append name_prefix)).
    apply (bool_decide_unpack _). now vm_compute.
Qed.

(** ** Instances of the further properties *)

Lemma acquire_y :
  Measure.__enter__ (Measure.__init__ 0 "y") world_active
  = (Return block_y, world_active).
Proof. reflexivity. Defined.

Lemma borrowed_context_is_left_alone_witness :
  current world_active <> None
  /\ world_active = world_active
  /\ Measure.start_context block_y = current world_active
  /\ Measure.created_context block_y = false
  /\ exists w3,
       call_exit block_y (Return tt) world2_drifted = (Return PyNone, w3) /\
       trace w3 = trace world2_drifted /\
       current w3 = current world2_drifted /\
       contexts w3 = contexts world2_drifted.
Proof.
  split; [simpl; discriminate|].
  apply (borrowed_context_is_left_alone 0 "y" world_active block_y
           world_active);
    [reflexivity | simpl; discriminate].
Defined.

Lemma acquire_touches_only_its_own_context_witness :
  Measure.__enter__ (Measure.__init__ 0 "x") world0 = (Return block_x, world1)
  /\ counts world1 = counts world0 /\ log world1 = log world0
  /\ clock_time world1 = clock_time world0
  /\ (forall r, r <> next_ref world0 -> contexts world1 r = contexts world0 r)
  /\ (forall e, In e (trace world1) ->
                In e (trace world0) \/
                e = Created (next_ref world0) \/
                e = Entered (next_ref world0))
  /\ (current world0 <> None -> world1 = world0).
Proof.
  split; [reflexivity|].
  apply (acquire_touches_only_its_own_context 0 "x" world0 world1 block_x);
    reflexivity.
Defined.

Lemma release_touches_only_its_own_label_witness :
  Measure.__enter__ (Measure.__init__ 0 "x") world0 = (Return block_x, world1)
  /\ exists c w3,
       Measure.start_context block_x = Some c /\
       call_exit block_x (Return tt) world2 = (Return PyNone, w3) /\
       (forall k label,
          label <> "x" -> counts w3 k !! label = counts world2 k !! label) /\
       clock_time w3 = clock_time world2 /\
       next_ref w3 = next_ref world2 /\
       (forall x, running_totals (contexts w3 x)
                  = running_totals (contexts world2 x)) /\
       (trace w3 = trace world2 \/
        trace w3 = (trace world2 ++ [Exited c])%list).
Proof.
  split; [reflexivity|].
  apply (release_touches_only_its_own_label 0 "x" world0 block_x world1);
    reflexivity.
Defined.

Lemma release_restores_active_context_witness :
  current world2 = Measure.start_context block_x
  /\ LoggingContext.previous_context (contexts world2 0)
     = LoggingContext.previous_context (contexts world1 0)
  /\ exists w3,
       call_exit block_x (Return tt) world2 = (Return PyNone, w3) /\
       current w3 = current world0.
Proof.
  split; [reflexivity|]. split; [reflexivity|].
  apply (release_restores_active_context 0 "x" world0 block_x world1);
    [reflexivity | reflexivity |].
  intros c [= <-]. reflexivity.
Defined.

Lemma release_is_skipped_only_for_exception_instances_witness :
  Measure.__enter__ (Measure.__init__ 0 "x") world0 = (Return block_x, world1)
  /\ (Measure.__exit__ block_x (PyInstance ValueError) PyNone PyNone world2
      = (Return PyNone, world2)
      <-> isinstance_Exception (PyInstance ValueError) = true).
Proof.
  split; [reflexivity|].
  apply (release_is_skipped_only_for_exception_instances 0 "x" world0
           block_x world1);
    reflexivity.
Defined.

Lemma measured_function_keeps_outcome_witness :
  Measure.__enter__ (Measure.__init__ 0 "x") world0 = (Return block_x, world1)
  /\ exists w3,
       measure_func false (fun _ : unit => 0) "x" scenario_method tt tt world0
       = (delivered false (fst (scenario_method tt tt world1)), w3) /\
       (forall v, fst (scenario_method tt tt world1) = Return v ->
                  measure_func false (fun _ : unit => 0) "x" scenario_method
                    tt tt world0
                  = (Return (Value v), w3)) /\
       (count (counts w3 block_counter) "x"
        == count (counts (snd (scenario_method tt tt world1)) block_counter)
             "x" + 1)%Q.
Proof.
  split; [reflexivity|].
  apply (measured_function_keeps_outcome false (fun _ : unit => 0) "x"
           scenario_method tt tt world0 world1 block_x);
    reflexivity.
Defined.

Lemma inner_block_borrows_outer_context_witness :
  Measure.__enter__ (Measure.__init__ 0 "x") world0 = (Return block_x, world1)
  /\ exists m2,
       Measure.__enter__ (Measure.__init__ 1 "inner") world1
       = (Return m2, world1) /\
       Measure.start_context m2 = Measure.start_context block_x /\
       Measure.created_context m2 = false.
Proof.
  split; [reflexivity|].
  apply (inner_block_borrows_outer_context 0 "x" world0 block_x world1);
    reflexivity.
Defined.

Lemma nested_blocks_of_one_name_count_twice_witness :
  work 1300 0 2 400 world1 = (Return tt, world2)
  /\ current world2 = current world1
  /\ exists c w4,
       Measure.start_context block_x = Some c /\
       with_Measure 0 "x" (with_Measure 1 "x" (work 1300 0 2 400)) world0
       = (Return (Some (Some tt)), w4) /\
       (count (counts w4 block_counter) "x"
        == count (counts world2 block_counter) "x" + 2)%Q /\
       log w4 = log world2 /\
       trace w4
       = (if Measure.created_context block_x
          then (trace world2 ++ [Exited c])%list
          else trace world2).
Proof.
  split; [reflexivity|]. split; [reflexivity|].
  apply (nested_blocks_of_one_name_count_twice 0 "x" world0 block_x world1);
    reflexivity.
Defined.

Lemma two_works_return (wk : M unit) :
  In wk two_works ->
  forall w, exists a w',
    wk w = (Return a, w') /\
    (count (counts w' block_counter) "x"
     == count (counts w block_counter) "x")%Q.
Proof.
  intros [<-|[<-|[]]] w; eexists _, _; split; reflexivity.
Defined.

Lemma measure_each_counts_every_block_witness :
  (forall wk, In wk two_works ->
     forall w, exists a w',
       wk w = (Return a, w') /\
       (count (counts w' block_counter) "x"
        == count (counts w block_counter) "x")%Q)
  /\ exists w',
       measure_each 0 "x" two_works world0 = (Return tt, w') /\
       (count (counts w' block_counter) "x"
        == count (counts world0 block_counter) "x"
           + inject_Z (Z.of_nat (length two_works)))%Q.
Proof.
  split; [exact two_works_return|].
  exact (measure_each_counts_every_block 0 "x" two_works two_works_return
           world0).
Defined.
